(** * s3_file_ops: a shallow embedding of the [s3os] package

    The package wraps the local file system ([file_ops.py]) and one S3 bucket
    ([s3_file_ops.py], class [S3os]) behind [os]-like helpers.  This file
    embeds the functions of both modules and of [list_ops.py] that the
    properties of the specification are about, and proves or refutes those
    properties.

    Conventions.
    - Python [str] values are Rocq [string]s over ASCII; [str.upper] folds
      the letters [a]..[z] only.
    - Python [int] is [Z].  The one place where a [float] appears (the size
      formatter inside [S3os.exists]) is modelled exactly, see
      [s3_file_ops.pynum].
    - A call that may raise returns a [result]; a generator is the list of
      the values it yields together with the exception that ends it, if any.
    - The collaborators of the package that are plain libraries ([re], [os],
      [glob], [pandas], the S3 service behind [boto3]) are modelled from their
      documented behaviour; the regular-expression engine is an interface
      ([Re]) because only its results matter to the package. *)

From stdpp Require Import gmap strings list sorting pretty.
From Stdlib Require Import ZArith Ascii String Lia.

Open Scope string_scope.
Open Scope Z_scope.
Open Scope list_scope.

(** ** Python values, exceptions and results *)

Inductive exn : Type :=
| AttributeError (cls attr : string)
| NameError (name : string)
| KeyError (key : Z)
| ValueError (msg : string)
| OverflowError (msg : string)
| Exception_ (msg : string)
| ReError (pattern : string)
| ClientError (msg : string)
| IsADirectoryError (path : string)
| FileNotFoundError (path : string)
| ParserError (msg : string)
| LoopBudget.

Inductive result (A : Type) : Type :=
| Ret (a : A)
| Raise (e : exn).
Arguments Ret {A} a.
Arguments Raise {A} e.

Definition rbind {A B} (r : result A) (k : A → result B) : result B :=
  match r with
  | Ret a => k a
  | Raise e => Raise e
  end.

(** What [S3os.exists] can hand back: [None], an [int] or a [str]. *)
Inductive pyval : Type :=
| PyNone
| PyInt (z : Z)
| PyStr (s : string).

(** ** Strings *)

Module PyStr.

Definition upper_char (c : ascii) : ascii :=
  let n := nat_of_ascii c in
  if ((97 <=? n)%nat && (n <=? 122)%nat)%bool then ascii_of_nat (n - 32) else c.

(** [s.upper()] *)
Fixpoint upper (s : string) : string :=
  match s with
  | EmptyString => EmptyString
  | String c s' => String (upper_char c) (upper s')
  end.

(** [s.startswith(p)] *)
Definition startswith (p s : string) : bool := String.prefix p s.

(** [sub in s] *)
Fixpoint contains (sub s : string) : bool :=
  startswith sub s ||
  match s with
  | EmptyString => false
  | String _ s' => contains sub s'
  end.

(** [s.endswith(suf)] *)
Fixpoint endswith (suf s : string) : bool :=
  String.eqb suf s ||
  match s with
  | EmptyString => false
  | String _ s' => endswith suf s'
  end.

(** [s.split(c)] for a one-character separator: empty fields are kept. *)
Fixpoint split (c : ascii) (s : string) : list string :=
  match s with
  | EmptyString => [EmptyString]
  | String a s' =>
      if Ascii.eqb a c then EmptyString :: split c s'
      else match split c s' with
           | [] => [String a EmptyString]
           | w :: ws => String a w :: ws
           end
  end.

Definition is_digit (c : ascii) : bool :=
  let n := nat_of_ascii c in ((48 <=? n)%nat && (n <=? 57)%nat)%bool.

Fixpoint take_digits (s : string) : string :=
  match s with
  | EmptyString => EmptyString
  | String c s' => if is_digit c then String c (take_digits s') else EmptyString
  end.

(** The text matched by [re.compile('[0-9]+').search(s)]: the leftmost,
    longest run of ASCII digits, if there is one. *)
Fixpoint first_digit_run (s : string) : option string :=
  match s with
  | EmptyString => None
  | String c s' => if is_digit c then Some (take_digits s) else first_digit_run s'
  end.

Fixpoint int_of_digits_from (acc : Z) (s : string) : Z :=
  match s with
  | EmptyString => acc
  | String c s' => int_of_digits_from (10 * acc + (Z.of_nat (nat_of_ascii c) - 48)) s'
  end.

(** [int(s)] for a non-empty string of ASCII digits. *)
Definition int_of_digits (s : string) : Z := int_of_digits_from 0 s.

(** [str(z)] for an [int]. *)
Definition str_of_int (z : Z) : string := pretty z.

(** [s.replace(old, new)] for a non-empty [old], scanning from the left;
    [skip] counts the characters of the last match still to be passed. *)
Fixpoint replace_from (old new : string) (skip : nat) (s : string) : string :=
  match s with
  | EmptyString => EmptyString
  | String c s' =>
      match skip with
      | S k => replace_from old new k s'
      | O =>
          if startswith old s
          then new +:+ replace_from old new (Nat.pred (String.length old)) s'
          else String c (replace_from old new O s')
      end
  end.

(** With an empty [old], [new] goes before every character and at the end. *)
Fixpoint replace_empty (new s : string) : string :=
  match s with
  | EmptyString => new
  | String c s' => new +:+ String c (replace_empty new s')
  end.

(** [s.replace(old, new)] *)
Definition replace (old new s : string) : string :=
  if String.eqb old EmptyString then replace_empty new s
  else replace_from old new O s.

End PyStr.

(** ** [os.path] (posixpath) *)

Module os_path.

Definition sep : string := "/".

Definition is_sep (c : ascii) : bool := Ascii.eqb c "/"%char.

(** [(p[:i], p[i:])] with [i = p.rfind('/') + 1]. *)
Fixpoint rsplit_sep (p : string) : string * string :=
  match p with
  | EmptyString => (EmptyString, EmptyString)
  | String c p' =>
      let '(h, t) := rsplit_sep p' in
      if is_sep c then (String c h, t)
      else match h with
           | EmptyString => (EmptyString, String c t)
           | _ => (String c h, t)
           end
  end.

Fixpoint all_sep (s : string) : bool :=
  match s with
  | EmptyString => true
  | String c s' => is_sep c && all_sep s'
  end.

(** [s.rstrip('/')] *)
Fixpoint rstrip_sep (s : string) : string :=
  match s with
  | EmptyString => EmptyString
  | String c s' =>
      match rstrip_sep s' with
      | EmptyString => if is_sep c then EmptyString else String c EmptyString
      | r => String c r
      end
  end.

(** [os.path.basename(p)] *)
Definition basename (p : string) : string := snd (rsplit_sep p).

(** The head that [posixpath.split] and [posixpath.dirname] return:
    trailing separators are stripped unless the head is only separators. *)
Definition strip_head (head : string) : string :=
  if (negb (String.eqb head EmptyString) && negb (all_sep head))%bool
  then rstrip_sep head else head.

(** [os.path.dirname(p)] *)
Definition dirname (p : string) : string := strip_head (fst (rsplit_sep p)).

(** [os.path.join(a, b)] *)
Definition join (a b : string) : string :=
  if PyStr.startswith sep b then b
  else if (String.eqb a EmptyString || PyStr.endswith sep a)%bool then a +:+ b
  else a +:+ sep +:+ b.

End os_path.

(** ** The regular-expression engine

    [re] is used with caller-supplied patterns in two places:
    [re.search(substrings, name)] in [get_list_of_file_paths_in_dir] and
    [re.compile(key_prefix).match(key)] in [S3os.exists].  Compiling an
    ill-formed pattern raises; matching is a yes/no answer. *)

Class Re : Type := {
  pattern : Type;
  re_compile : string → result pattern;
  re_match : pattern → string → bool;
  re_search : pattern → string → bool
}.

(** The engine restricted to patterns without metacharacters: such a pattern
    always compiles, [match] is a prefix test and [search] a substring test. *)
Definition literal_re : Re := {|
  pattern := string;
  re_compile := λ p, Ret p;
  re_match := λ p s, PyStr.startswith p s;
  re_search := λ p s, PyStr.contains p s
|}.

(** ** The local file system and pandas, as the package sees them *)

(** One item of [os.walk]: [(root, dirs, files)]. *)
Definition walk_item : Type := string * list string * list string.

Class Os : Type := {
  (** the items [os.walk(top)] produces, in order *)
  os_walk : string → list walk_item;
  (** [glob.glob(pathname)] *)
  glob_glob : string → list string;
  (** the text read through [codecs.open(path, "r", "utf-8", "ignore")] *)
  codecs_open : string → result string
}.

Class Pandas : Type := {
  DataFrame : Type;
  (** parsing of comma-delimited text ([pd.read_table] / [pd.read_csv]) *)
  pd_read_table : string → result DataFrame;
  (** row-wise concatenation of at least one frame *)
  concat_frames : DataFrame → list DataFrame → DataFrame
}.

(** [pd.concat(objs)]: pandas refuses an empty list with
    [ValueError("No objects to concatenate")]; the specification calls this
    failure EmptyAggregation. *)
Definition pd_concat `{Pandas} (objs : list DataFrame) : result DataFrame :=
  match objs with
  | [] => Raise (ValueError "No objects to concatenate")
  | d :: ds => Ret (concat_frames d ds)
  end.

(** ** Generators *)

(** The values a generator yields, and the exception that ends it (if any). *)
Definition gen (A : Type) : Type := list A * option exn.

Definition gen_done {A} : gen A := ([], None).
Definition gen_raise {A} (e : exn) : gen A := ([], Some e).
Definition gen_yield {A} (a : A) (rest : gen A) : gen A := (a :: fst rest, snd rest).

(** Run [g1], then [g2] unless [g1] ended with an exception. *)
Definition gen_seq {A} (g1 g2 : gen A) : gen A :=
  match snd g1 with
  | Some e => g1
  | None => (fst g1 ++ fst g2, snd g2)
  end.

(** [for x in xs: yield from body(x)] *)
Fixpoint gen_for {A B} (xs : list A) (body : A → gen B) : gen B :=
  match xs with
  | [] => gen_done
  | x :: xs' => gen_seq (body x) (gen_for xs' body)
  end.

Definition yields {A} (g : gen A) : list A := fst g.
Definition raised {A} (g : gen A) : option exn := snd g.

(** ** list_ops.py *)

Module list_ops.

(** The argument of the helpers that take "a path or a list of paths". *)
Inductive paths_arg : Type :=
| OnePath (p : string)
| ManyPaths (ps : list string).

(** [is_list_like(variable)]: [isinstance] against list, tuple, ndarray,
    Series; a [str] is none of them. *)
Definition is_list_like (variable : paths_arg) : bool :=
  match variable with
  | OnePath _ => false
  | ManyPaths _ => true
  end.

End list_ops.

(** ** file_ops.py *)

Module file_ops.
Import list_ops.

(** The [substrings] argument: [None], a [str] or a [list] of [str]. *)
Inductive substrings_arg : Type :=
| SubNone
| SubStr (s : string)
| SubList (l : list string).

(** Result of the helpers that map a path or a list of paths. *)
Inductive names_result : Type :=
| OneName (s : string)
| ManyNames (l : list string).

(** The names bound at module level in [file_ops.py]. *)
Definition module_globals : list string :=
  ["os"; "re"; "glob"; "codecs"; "np"; "pd"; "list_ops";
   "change_permission"; "get_list_of_subdir_in_dir";
   "get_list_of_file_paths_in_dir"; "get_file_names_from_paths";
   "get_dir_names_from_paths"; "read_all_csv_files_in_directory_as_one_df";
   "delete"].

(** The builtins the module could fall back on are modules, types and
    functions; none of them is a [str]. *)
Inductive global_object : Type := ModuleOrFunction.

(** Loading a name that is not a local of the running function:
    module globals, else [NameError]. *)
Definition load_global (name : string) : result global_object :=
  if bool_decide (name ∈ module_globals) then Ret ModuleOrFunction
  else Raise (NameError name).

(** [re.search('/$', root)]: [$] matches at the end of the string and
    before a newline that ends it. *)
Definition search_trailing_sep (root : string) : bool :=
  PyStr.endswith "/" root || PyStr.endswith (String "/" (String "010" EmptyString)) root.

Section with_os.
Context `{Re} `{Os} `{Pandas}.

(** [get_list_of_subdir_in_dir(directory)] *)
Definition get_list_of_subdir_in_dir (directory : string) : list string :=
  foldl (λ list_of_all_dirs (item : walk_item),
           let root := item.1.1 in
           let root := if negb (search_trailing_sep root)
                       then root +:+ os_path.sep else root in
           if negb (PyStr.contains ".ipynb_checkpoints" root)
           then list_of_all_dirs ++ [root] else list_of_all_dirs)
        [] (os_walk directory).

(** The test of the literal branch (line 95):
    [all(s.upper() in f.upper() for s in substrings)], where [f] is the
    path that [glob.glob] returned. *)
Definition all_substrings_in (f : string) (substrings : list string) : bool :=
  forallb (λ this_substring,
             PyStr.contains (PyStr.upper this_substring) (PyStr.upper f))
          substrings.

(** The loop of the regex branch (lines 87-89); [re.search] compiles its
    pattern at every call. *)
Fixpoint regex_loop (substrings : string) (list_of_file_paths : list string)
  : gen string :=
  match list_of_file_paths with
  | [] => gen_done
  | f :: rest =>
      match re_compile substrings with
      | Raise e => gen_raise e
      | Ret p =>
          if re_search p (os_path.basename f)
          then gen_yield f (regex_loop substrings rest)
          else regex_loop substrings rest
      end
  end.

(** Lines 81-99: what the generator does after the optional descent
    into the subfolders.  The four [if]s run one after the other. *)
Definition own_entries (directory : string) (substrings : substrings_arg)
    (regex : bool) : gen string :=
  let list_of_file_paths := glob_glob (os_path.join directory "*") in
  match regex, substrings with
  | true, SubList _ =>
      gen_raise (Exception_ "If you want to match regex, the substrings should be of str type instead of list")
  | true, SubStr s => regex_loop s list_of_file_paths
  | true, SubNone => gen_done
  | false, SubStr s =>
      let substrings := PyStr.split " " s in
      (filter (λ f, all_substrings_in f substrings) list_of_file_paths, None)
  | false, SubList substrings =>
      (filter (λ f, all_substrings_in f substrings) list_of_file_paths, None)
  | false, SubNone => (list_of_file_paths, None)
  end.

(** [get_list_of_file_paths_in_dir(directory, substrings, subfolders, regex)].
    The recursive calls of lines 74-79 pass [subfolders=False], so each of
    them runs lines 81-99 only. *)
Definition get_list_of_file_paths_in_dir (directory : string)
    (substrings : substrings_arg) (subfolders regex : bool) : gen string :=
  let descent :=
    if subfolders then
      let list_subdir := get_list_of_subdir_in_dir directory in
      gen_for list_subdir (λ this_subdir, own_entries this_subdir substrings regex)
    else gen_done in
  gen_seq descent (own_entries directory substrings regex).

(** [get_file_names_from_paths(list_of_file_paths)]; [is_list_like] holds
    of [ManyPaths] and of nothing else. *)
Definition get_file_names_from_paths (list_of_file_paths : paths_arg)
  : names_result :=
  match list_of_file_paths with
  | ManyPaths ps => ManyNames (map os_path.basename ps)
  | OnePath p => OneName (os_path.basename p)
  end.

(** [get_dir_names_from_paths(list_of_file_paths)].  The list branch
    builds [list(set(...))]; the other branch reads [this_path], which is
    bound only inside the comprehension of the list branch, so the name
    is looked up among the globals. *)
Definition get_dir_names_from_paths (list_of_file_paths : paths_arg)
  : result names_result :=
  match list_of_file_paths with
  | ManyPaths ps =>
      let dirs : gset string :=
        list_to_set (map (λ this_path, os_path.dirname this_path +:+ os_path.sep) ps) in
      Ret (ManyNames (elements dirs))
  | OnePath _ =>
      rbind (load_global "this_path")
            (λ _, Raise (Exception_ "dirname of a non-str object"))
  end.

(** The loop of lines 127-131 over the paths already yielded. *)
Fixpoint read_each (paths : list string) (all_df : list DataFrame)
  : result (list DataFrame) :=
  match paths with
  | [] => Ret all_df
  | this_file_path :: rest =>
      let this_file_name := get_file_names_from_paths (OnePath this_file_path) in
      rbind (codecs_open this_file_path) (λ f,
      rbind (pd_read_table f) (λ this_df,
      read_each rest (all_df ++ [this_df])))
  end.

(** [read_all_csv_files_in_directory_as_one_df(folder_path, substrings, subfolders)] *)
Definition read_all_csv_files_in_directory_as_one_df (folder_path : string)
    (substrings : substrings_arg) (subfolders : bool) : result DataFrame :=
  let list_of_file_paths :=
    get_list_of_file_paths_in_dir folder_path substrings subfolders false in
  rbind (read_each (yields list_of_file_paths) []) (λ all_df,
  match raised list_of_file_paths with
  | Some e => Raise e
  | None => pd_concat all_df
  end).

End with_os.

(** *** [change_permission] *)

(** An argument meant to be a [bool]: a [bool], or an object of another
    type. *)
Inductive flag_arg : Type :=
| FlagBool (b : bool)
| FlagOther.

(** [isinstance(x, bool)] *)
Definition isinstance_bool (x : flag_arg) : bool :=
  match x with
  | FlagBool _ => true
  | FlagOther => false
  end.

(** The octal literal [0o<owner><group><everyone>]. *)
Definition octal (owner group everyone : Z) : Z := owner * 64 + group * 8 + everyone.

(** [os.chmod(path, mode)] on the permission bits of the paths that exist. *)
Definition os_chmod (path : string) (mode : Z) (modes : gmap string Z)
  : result (gmap string Z) :=
  match modes !! path with
  | Some _ => Ret (<[path := mode]> modes)
  | None => Raise (FileNotFoundError path)
  end.

(** [change_permission(this_path, allow_read, allow_write)].  The two
    messages name the variable between quotes; here the variable is the first
    field of the exception and the rest of the sentence the second. *)
Definition change_permission (this_path : string) (allow_read allow_write : flag_arg)
    (modes : gmap string Z) : result (gmap string Z) :=
  match allow_read with
  | FlagOther => Raise (AttributeError "allow_read" "variable must be either True or False.")
  | FlagBool allow_read =>
      match allow_write with
      | FlagOther =>
          Raise (AttributeError "allow_write" "variable must be either True or False.")
      | FlagBool allow_write =>
          let octal_permission :=
            if (allow_read && allow_write)%bool then octal 7 7 0
            else if allow_read then octal 5 5 0
            else if allow_write then octal 3 3 0
            else octal 1 1 0 in
          os_chmod this_path octal_permission modes
      end
  end.

End file_ops.

(** ** s3_file_ops.py *)

Module s3_file_ops.

(** *** The bucket and the process, as state *)

(** [objects]: the objects of the bucket the adapter is bound to, key to
    body.  [log]: the messages handed to [mem_check], oldest first. *)
Record world : Type := World {
  objects : gmap string string;
  log : list string
}.

(** A method body: reads and updates the world, returns or raises. *)
Definition M (A : Type) : Type := world → result A * world.

Definition ret {A} (a : A) : M A := λ w, (Ret a, w).
Definition raise {A} (e : exn) : M A := λ w, (Raise e, w).
Definition lift {A} (r : result A) : M A := λ w, (r, w).
Definition bind {A B} (c : M A) (k : A → M B) : M B :=
  λ w, match c w with
       | (Ret a, w') => k a w'
       | (Raise e, w') => (Raise e, w')
       end.

Notation "x <~ c ;; k" := (bind c (λ x, k))
  (at level 100, c at next level, right associativity).
Notation "c ;;; k" := (bind c (λ _, k))
  (at level 100, right associativity).

(** [utils.mem_check(message)]: logging only; failures inside it are
    swallowed by its own [try]. *)
Definition mem_check (message : string) : M unit :=
  λ w, (Ret tt, {| objects := objects w; log := log w ++ [message] |}).

(** *** The S3 service behind boto3 *)

(** Keys come back in ascending byte order. *)
Definition sorted_keys (w : world) : list string :=
  merge_sort (λ a b, String.leb a b) (elements (dom (objects w))).

Definition keys_under (w : world) (Prefix : string) : list string :=
  filter (λ k, PyStr.startswith Prefix k) (sorted_keys w).

(** [bucket.objects.filter(Prefix=...)]: every key under the prefix (the
    resource collection follows the pages by itself). *)
Definition bucket_objects_filter (Prefix : string) : M (list string) :=
  λ w, (Ret (keys_under w Prefix), w).

Record object_summary : Type := Summary { Key : string; Size : Z }.

(** The fields of a [list_objects_v2] response that [exists] reads; either
    may be missing from the dictionary. *)
Record listing : Type := Listing {
  Contents : option (list object_summary);
  KeyCount : option Z
}.

Definition page_cap : nat := 1000.

Definition size_of (w : world) (k : string) : Z :=
  match objects w !! k with
  | Some body => Z.of_nat (String.length body)
  | None => 0
  end.

(** [client.list_objects_v2(Bucket, Prefix)]: one page of at most 1000
    keys; [Contents] is left out when the page is empty. *)
Definition list_objects_v2 (Prefix : string) : M listing :=
  λ w, let page := take page_cap (keys_under w Prefix) in
       (Ret {| Contents := match page with
                           | [] => None
                           | _ => Some (map (λ k, Summary k (size_of w k)) page)
                           end;
               KeyCount := Some (Z.of_nat (List.length page)) |}, w).

(** [s3.meta.client.copy(source, bucket, key)] inside one bucket. *)
Definition client_copy (copy_this_key to_here : string) : M unit :=
  λ w, match objects w !! copy_this_key with
       | Some body =>
           (Ret tt, {| objects := <[to_here := body]> (objects w); log := log w |})
       | None => (Raise (ClientError "404 Not Found"), w)
       end.

(** [bucket.Object(key).delete()]: S3 acknowledges whether or not the key
    was there. *)
Definition object_delete (this_key : string) : M unit :=
  λ w, (Ret tt, {| objects := delete this_key (objects w); log := log w |}).

(** [client.put_object(Bucket, Key)] with no body; boto3 rejects an empty
    key before sending. *)
Definition put_object (key : string) : M unit :=
  λ w, if String.eqb key EmptyString then (Raise (ClientError "Invalid length for parameter Key"), w)
       else (Ret tt, {| objects := <[key := EmptyString]> (objects w); log := log w |}).

(** *** Numbers in the size formatter

    [size] starts as an [int]; the first [size /= power] turns it into a
    [float].  A binary64 value met here is [m / 2^k] with [m] of at most 53
    significant bits, and is kept as that pair. *)
Inductive pynum : Type :=
| NInt (z : Z)
| NFloat (m k : Z).

(** The integer nearest to [a > 0] with at most 53 significant bits, ties
    to even: the conversion that true division applies to an [int]. *)
Definition round53 (a : Z) : Z :=
  let bits := Z.log2 a + 1 in
  if bits <=? 53 then a
  else
    let sh := bits - 53 in
    let q := Z.shiftr a sh in
    let r := Z.land a (Z.ones sh) in
    let half := Z.shiftl 1 (sh - 1) in
    let m := if ((half <? r) || ((r =? half) && Z.odd q))%bool then q + 1 else q in
    Z.shiftl m sh.

Definition power : Z := 2 ^ 10.

(** [size > power] *)
Definition gt_power (size : pynum) : bool :=
  match size with
  | NInt z => power <? z
  | NFloat m k => power * 2 ^ k <? m
  end.

(** [size / power].  [int / int] is correctly rounded and overflows when
    the quotient does not fit a binary64; [float / 1024] is exact. *)
Definition div_power (size : pynum) : result pynum :=
  match size with
  | NInt z =>
      let m := round53 z in
      if 2 ^ 1034 <=? m
      then Raise (OverflowError "integer division result too large for a float")
      else Ret (NFloat m 10)
  | NFloat m k => Ret (NFloat m (k + 10))
  end.

(** [while size > power: size /= power; n += 1], at most [fuel] rounds. *)
Fixpoint while_gt_power (fuel : nat) (size : pynum) (n : Z)
  : option (result (pynum * Z)) :=
  if gt_power size then
    match fuel with
    | O => None
    | S fuel' =>
        match div_power size with
        | Raise e => Some (Raise e)
        | Ret size' => while_gt_power fuel' size' (n + 1)
        end
    end
  else Some (Ret (size, n)).

(** Rounds of the loop that certainly suffice for [size]. *)
Definition rounds_for (size : Z) : nat := S (Z.to_nat (Z.log2 size)).

(** [num / den] rounded to the nearest integer, ties to even. *)
Definition round_half_even (num den : Z) : Z :=
  let q := num / den in
  let r := num mod den in
  if ((den <? 2 * r) || ((2 * r =? den) && Z.odd q))%bool then q + 1 else q.

(** The [repr] of the float [h / 100] for [h >= 0]: at least one and at
    most two decimals. *)
Definition repr_hundredths (h : Z) : string :=
  let f := h mod 100 in
  PyStr.str_of_int (h / 100) +:+ "." +:+
  (if f mod 10 =? 0 then PyStr.str_of_int (f / 10)
   else PyStr.str_of_int (f / 10) +:+ PyStr.str_of_int (f mod 10)).

(** [str(round(size, 2))]: [round] leaves an [int] alone and rounds the
    exact value of a [float] to hundredths, ties to even. *)
Definition str_round2 (size : pynum) : string :=
  match size with
  | NInt z => PyStr.str_of_int z
  | NFloat m k => repr_hundredths (round_half_even (100 * m) (2 ^ k))
  end.

(** [power_labels = {0: '', 1: 'k', 2: 'M', 3: 'G'}] *)
Definition power_labels : gmap Z string :=
  <[0 := EmptyString]> (<[1 := "k"]> (<[2 := "M"]> (<[3 := "G"]> ∅))).

(** [_format_file_size(size)], the function nested in [exists]. *)
Definition _format_file_size (size : Z) : result string :=
  match while_gt_power (rounds_for size) (NInt size) 0 with
  | None => Raise LoopBudget
  | Some (Raise e) => Raise e
  | Some (Ret (size', n)) =>
      match power_labels !! n with
      | None => Raise (KeyError n)
      | Some label => Ret (str_round2 size' +:+ " " +:+ label +:+ "B")
      end
  end.

(** *** class S3os *)

Record S3os : Type := { bucket_name : string }.

(** The attributes an [S3os] instance has: those set by [__init__] and the
    methods of the class. *)
Definition S3os_attributes : list string :=
  ["role"; "client"; "s3"; "bucket_name"; "bucket";
   "listdir"; "copy"; "remove"; "rename"; "save_dataframe";
   "download_dir"; "upload_dir"; "exists"; "create_if_not_exists";
   "read_all_csv_files_in_directory_as_one_df"].

Section with_re.
Context `{Re} `{Pandas}.

(** [listdir(dir_path, substring=None)] *)
Definition listdir (self : S3os) (dir_path : string) (substring : option string)
  : M (list string) :=
  list_of_all_files <~ bucket_objects_filter dir_path ;;
  match substring with
  | Some substring =>
      ret (filter (λ f, PyStr.contains substring f) list_of_all_files)
  | None => ret list_of_all_files
  end.

(** [copy(copy_this_key, to_here)] *)
Definition copy (self : S3os) (copy_this_key to_here : string) : M unit :=
  client_copy copy_this_key to_here.

(** [remove(this_key)] *)
Definition remove (self : S3os) (this_key : string) : M unit :=
  object_delete this_key.

(** [self.<name>(key)] for a name resolved at run time: the attribute is
    looked up first, and a missing one raises [AttributeError].  Of the
    attributes that exist, [remove] is the one that takes a key and
    deletes it. *)
Definition call_attribute (self : S3os) (name : string) (key : string) : M unit :=
  if bool_decide (name ∈ S3os_attributes) then
    if String.eqb name "remove" then remove self key
    else raise (Exception_ "attribute called with one key argument")
  else raise (AttributeError "S3os" name).

(** [rename(old_key, new_key)]: [self.copy(...)], then [self.delete(...)]. *)
Definition rename (self : S3os) (old_key new_key : string) : M unit :=
  copy self old_key new_key ;;;
  call_attribute self "delete" old_key ;;;
  ret tt.

(** Lines 166-171: the sum of the sizes of the listed keys that
    [re_prefix.match] accepts. *)
Definition matched_size (re_prefix : pattern) (contents : list object_summary) : Z :=
  foldl (λ size obj, if re_match re_prefix (Key obj) then size + Size obj else size)
        0 contents.

(** [str(size)] at line 193, where [size] is the [int] or the formatted
    [str]. *)
Definition str_of_size (size : pyval) : string :=
  match size with
  | PyNone => "None"
  | PyInt z => PyStr.str_of_int z
  | PyStr s => s
  end.

(** Lines 163-196 of [exists], on the response already fetched. *)
Definition exists_on (response : listing) (key_prefix : string)
    (format_size : bool) : result pyval :=
  rbind (re_compile key_prefix) (λ re_prefix,
  let size := matched_size re_prefix (default [] (Contents response)) in
  if size =? 0 then Ret PyNone
  else
    rbind (if format_size
           then rbind (_format_file_size size) (λ s, Ret (PyStr s))
           else Ret (PyInt size)) (λ size,
    if bool_decide (KeyCount response = Some 1000)
    then Ret (PyStr (">" +:+ str_of_size size))
    else Ret size)).

(** [exists(key_prefix, format_size=False)]; the underscore keeps the name
    clear of the binder. *)
Definition exists_ (self : S3os) (key_prefix : string) (format_size : bool)
  : M pyval :=
  response <~ list_objects_v2 key_prefix ;;
  lift (exists_on response key_prefix format_size).

(** Truth value of a [str] used as a condition. *)
Definition truthy (s : string) : bool := negb (String.eqb s EmptyString).

(** [create_if_not_exists(key)].  Line 208 is
    [self.exists(self.bucket_name, key)]: the bucket name lands in
    [key_prefix] and the key in [format_size]. *)
Definition create_if_not_exists (self : S3os) (key : string) : M unit :=
  found <~ exists_ self (bucket_name self) (truthy key) ;;
  match found with
  | PyNone =>
      put_object key ;;;
      mem_check ("Following folder/file created: " +:+ key)
  | _ => mem_check ("Follwoing folder/file already exists: " +:+ key)
  end.

(** [pd.read_csv('s3://{bucket}/{key}')]: the object is fetched and
    parsed. *)
Definition pd_read_csv_s3 (bucket key : string) : M DataFrame :=
  λ w, match objects w !! key with
       | Some body => (pd_read_table body, w)
       | None => (Raise (FileNotFoundError ("s3://" +:+ bucket +:+ "/" +:+ key)), w)
       end.

(** The test of line 224 together with lines 225-229: the key is loaded
    when it ends in [.csv], holds a digit, and the first run of digits
    anywhere in the key is not the number zero. *)
Definition is_loaded (file : string) : bool :=
  if (PyStr.endswith ".csv" file && bool_decide (is_Some (PyStr.first_digit_run file)))%bool
  then
    match PyStr.first_digit_run file with
    | Some digits =>
        let n_patents := PyStr.int_of_digits digits in
        negb (n_patents =? 0)
    | None => false
    end
  else false.

(** The loop of lines 220-236. *)
Fixpoint read_listed (self : S3os) (idx n_files : Z) (files : list string)
    (all_df : list DataFrame) : M (list DataFrame) :=
  match files with
  | [] => ret all_df
  | file :: rest =>
      (if idx mod 50 =? 0
       then mem_check ("Read " +:+ PyStr.str_of_int idx +:+ "/" +:+ PyStr.str_of_int n_files)
       else ret tt) ;;;
      if is_loaded file then
        this_df <~ pd_read_csv_s3 (bucket_name self) file ;;
        read_listed self (idx + 1) n_files rest (all_df ++ [this_df])
      else read_listed self (idx + 1) n_files rest all_df
  end.

(** [read_all_csv_files_in_directory_as_one_df(dir_path)] *)
Definition read_all_csv_files_in_directory_as_one_df (self : S3os)
    (dir_path : string) : M DataFrame :=
  list_of_all_files <~ listdir self dir_path None ;;
  let n_files := Z.of_nat (List.length list_of_all_files) in
  all_df <~ read_listed self 0 n_files list_of_all_files [] ;;
  df <~ lift (pd_concat all_df) ;;
  mem_check "Read all csv files in directory as one DataFrame" ;;;
  ret df.

End with_re.

(** *** [save_dataframe] *)

(** [df.to_csv(buffer)] followed by [buffer.getvalue()]. *)
Class CsvWriter `{Pandas} : Type := {
  to_csv : DataFrame → string
}.

(** [bucket.Object(key).put(Body=body)] and [client.upload_file]'s write;
    boto3 rejects an empty key before sending. *)
Definition object_put (key body : string) : M unit :=
  λ w, if String.eqb key EmptyString
       then (Raise (ClientError "Invalid length for parameter Key"), w)
       else (Ret tt, {| objects := <[key := body]> (objects w); log := log w |}).

(** [save_dataframe(df_to_save, file_path)] *)
Definition save_dataframe `{CsvWriter} (self : S3os) (df_to_save : DataFrame)
    (file_path : string) : M unit :=
  let csv_buffer := to_csv df_to_save in
  object_put file_path csv_buffer.

(** *** [download_dir] *)

(** One page of the [list_objects] paginator called with a delimiter: the
    prefixes of the sub-folders and the keys, either of which may be
    missing. *)
Record page : Type := Page {
  CommonPrefixes : option (list string);
  PageContents : option (list string)
}.

(** [paginator.paginate(Bucket, Delimiter=os.sep, Prefix=...)] on the bucket
    as it stands during the call. *)
Class Paginator : Type := {
  paginate : string → list page
}.

(** The local disk that [download_dir] writes to. *)
Class LocalDisk : Type := {
  disk : Type;
  (** [os.path.exists(path)] *)
  os_path_exists : disk → string → bool;
  (** [os.makedirs(path)] *)
  os_makedirs : string → disk → result disk;
  (** [client.download_file(bucket, key, filename)] *)
  download_file : string → string → disk → result disk
}.

Section with_disk.
Context `{Paginator} `{LocalDisk}.

(** A loop whose body updates the disk; [None] when the recursion budget
    ran out inside it. *)
Fixpoint for_each {A} (xs : list A) (body : A → disk → option (result disk))
    (d : disk) : option (result disk) :=
  match xs with
  | [] => Some (Ret d)
  | x :: xs' =>
      match body x d with
      | Some (Ret d') => for_each xs' body d'
      | other => other
      end
  end.

(** Line 114: [os.path.join(save_to_this_dir, os.sep, this_file_path)]. *)
Definition full_file_path (save_to_this_dir this_file_path : string) : string :=
  os_path.join (os_path.join save_to_this_dir os_path.sep) this_file_path.

(** Lines 113-120, for one listed key. *)
Definition download_one (save_to_this_dir this_file_path : string) (d : disk)
  : result disk :=
  let this_full_file_path := full_file_path save_to_this_dir this_file_path in
  let this_dir := os_path.dirname this_full_file_path in
  rbind (if negb (os_path_exists d this_dir) then os_makedirs this_dir d else Ret d)
        (λ d, if PyStr.endswith "/" this_file_path then Ret d
              else download_file this_file_path this_full_file_path d).

(** [download_dir(download_this_s3_dir, save_to_this_dir)]; [fuel] bounds
    the depth of the recursion into the sub-folders. *)
Fixpoint download_dir (fuel : nat) (self : S3os)
    (download_this_s3_dir save_to_this_dir : string) (d : disk)
  : option (result disk) :=
  match fuel with
  | O => None
  | S fuel' =>
      for_each (paginate download_this_s3_dir)
        (λ result d,
           match
             match CommonPrefixes result with
             | Some subdirs =>
                 for_each subdirs
                   (λ subdir, download_dir fuel' self subdir save_to_this_dir) d
             | None => Some (Ret d)
             end
           with
           | Some (Ret d') =>
               match PageContents result with
               | Some files =>
                   for_each files
                     (λ file d, Some (download_one save_to_this_dir file d)) d'
               | None => Some (Ret d')
               end
           | other => other
           end) d
  end.

End with_disk.

(** *** [upload_dir] *)

(** The content [client.upload_file] reads from a local path. *)
Class LocalFiles : Type := {
  read_file : string → result string
}.

Section with_local_files.
Context `{Re} `{Os} `{LocalFiles}.

(** Lines 131-141: the paths to upload and the keys to upload them to. *)
Definition upload_lists (local_dir_path s3_dir_path : string)
    (list_of_file_and_dir_paths : list string) : list string * list string :=
  foldl (λ '(list_of_file_paths, list_of_file_save_path) this_path,
           let this_basename := os_path.basename this_path in
           if PyStr.contains "." this_basename then
             let this_s3_path := PyStr.replace local_dir_path s3_dir_path this_path in
             (list_of_file_paths ++ [this_path], list_of_file_save_path ++ [this_s3_path])
           else (list_of_file_paths, list_of_file_save_path))
        ([], []) list_of_file_and_dir_paths.

(** [client.upload_file(this_path, bucket, this_s3_path)] *)
Definition client_upload_file (this_path this_s3_path : string) : M unit :=
  λ w, match read_file this_path with
       | Ret body => object_put this_s3_path body w
       | Raise e => (Raise e, w)
       end.

(** The loop of lines 143-144. *)
Fixpoint upload_each (pairs : list (string * string)) : M unit :=
  match pairs with
  | [] => ret tt
  | (this_path, this_s3_path) :: rest =>
      client_upload_file this_path this_s3_path ;;;
      upload_each rest
  end.

(** [upload_dir(local_dir_path, s3_dir_path)] *)
Definition upload_dir (self : S3os) (local_dir_path s3_dir_path : string) : M unit :=
  let list_of_file_and_dir_paths :=
    file_ops.get_list_of_file_paths_in_dir local_dir_path file_ops.SubNone true false in
  match raised list_of_file_and_dir_paths with
  | Some e => raise e
  | None =>
      let '(list_of_file_paths, list_of_file_save_path) :=
        upload_lists local_dir_path s3_dir_path (yields list_of_file_and_dir_paths) in
      upload_each (zip list_of_file_paths list_of_file_save_path)
  end.

End with_local_files.
End s3_file_ops.

(** ** A file system to run the local functions on

    A tree of files and directories without links; paths are resolved from
    the root, which is also the working directory.  Entries are kept in the
    order in which the system lists them. *)

Module tree_fs.

#[local] Set Warnings "-register-all".

Inductive node : Type :=
| File (body : string)
| Dir (entries : list (string * node)).

Fixpoint lookup_entry (name : string) (entries : list (string * node)) : option node :=
  match entries with
  | [] => None
  | (n, x) :: rest => if String.eqb n name then Some x else lookup_entry name rest
  end.

(** Walk the components of a path; [above] holds the directories on the
    way down, nearest first. *)
Fixpoint resolve_from (above : list node) (cur : node) (comps : list string)
  : option node :=
  match comps with
  | [] => Some cur
  | c :: rest =>
      match cur with
      | File _ => None
      | Dir entries =>
          if (String.eqb c EmptyString || String.eqb c ".")%bool then resolve_from above cur rest
          else if String.eqb c ".." then
            match above with
            | [] => resolve_from [] cur rest
            | parent :: above' => resolve_from above' parent rest
            end
          else
            match lookup_entry c entries with
            | Some x => resolve_from (cur :: above) x rest
            | None => None
            end
      end
  end.

Definition resolve (root : node) (path : string) : option node :=
  if String.eqb path EmptyString then None
  else resolve_from [] root (PyStr.split "/" path).

Definition is_dir (x : node) : bool :=
  match x with Dir _ => true | File _ => false end.

Definition names_where (p : node → bool) (entries : list (string * node)) : list string :=
  map fst (filter (λ e, p e.2) entries).

(** [os.walk(top)] below a directory already resolved: the directory
    itself, then each sub-directory in turn. *)
Fixpoint walk_node (top : string) (x : node) : list walk_item :=
  match x with
  | File _ => []
  | Dir entries =>
      (top, names_where is_dir entries, names_where (λ y, negb (is_dir y)) entries)
      :: (fix below (es : list (string * node)) : list walk_item :=
            match es with
            | [] => []
            | (name, y) :: es' => walk_node (os_path.join top name) y ++ below es'
            end) entries
  end.

Definition walk (root : node) (top : string) : list walk_item :=
  match resolve root top with
  | Some x => walk_node top x
  | None => []
  end.

Definition has_magic (s : string) : bool :=
  PyStr.contains "*" s || PyStr.contains "?" s || PyStr.contains "[" s.

Definition hidden (name : string) : bool := PyStr.startswith "." name.

(** [glob.glob(pathname)] for the pathnames this package builds, a
    directory without metacharacters followed by a star: the entries of
    the directory that are not hidden, each joined to the directory as
    [posixpath.split] returns it.  Any other pathname is looked up as it
    stands. *)
Definition glob (root : node) (pathname : string) : list string :=
  let '(head, tail) := os_path.rsplit_sep pathname in
  let dirname := os_path.strip_head head in
  if (String.eqb tail "*" && negb (has_magic dirname))%bool then
    match (if String.eqb dirname EmptyString then Some root else resolve root dirname) with
    | Some (Dir entries) =>
        map (λ e, os_path.join dirname e.1) (filter (λ e, negb (hidden e.1)) entries)
    | _ => []
    end
  else if negb (has_magic pathname) then
    match resolve root pathname with
    | Some _ => [pathname]
    | None => []
    end
  else [].

Definition open_text (root : node) (path : string) : result string :=
  match resolve root path with
  | Some (File body) => Ret body
  | Some (Dir _) => Raise (IsADirectoryError path)
  | None => Raise (FileNotFoundError path)
  end.

Definition os_of (root : node) : Os := {|
  os_walk := walk root;
  glob_glob := glob root;
  codecs_open := open_text root
|}.

(** What [upload_file] reads from the tree. *)
Definition files_of (root : node) : s3_file_ops.LocalFiles := {|
  s3_file_ops.read_file := open_text root
|}.

End tree_fs.

(** A table as the list of its data lines; enough to run the aggregators. *)
Definition line_frames : Pandas := {|
  DataFrame := list string;
  pd_read_table := λ text, Ret (PyStr.split "010" text);
  concat_frames := λ d ds, d ++ List.concat ds
|}.

(** ** Sample data *)

Module samples.
Import tree_fs s3_file_ops.

(** [data/x.txt], [data/sub/y.csv] and a notebook checkpoint folder. *)
Definition disk : node :=
  Dir [("data", Dir [("x.txt", File "hello");
                     ("sub", Dir [("y.csv", File "a,b")]);
                     (".ipynb_checkpoints", Dir [("x-checkpoint.txt", File EmptyString)])]);
       ("empty", Dir [])].

Definition body_of_size (n : nat) : string := String.concat EmptyString (replicate n "x").

(** A bucket named [b] holding two objects of 100 and 1924 bytes. *)
Definition two_objects : world :=
  World (<["logs/a.bin" := body_of_size 100]>
         (<["logs/b.bin" := body_of_size 1924]> ∅)) [].

(** The page that [list_objects_v2] returns for the prefix [logs/]. *)
Definition two_listed : listing :=
  Listing (Some [Summary "logs/a.bin" 100; Summary "logs/b.bin" 1924]) (Some 2).

(** One object whose key is [k]. *)
Definition one_object : world := World (<["k" := "12345"]> ∅) [].

Definition adapter : S3os := {| bucket_name := "b" |}.

(** A full page: 1000 keys [p0] .. [p999] of [size] bytes each. *)
Definition full_page (size : Z) : listing :=
  Listing (Some (map (λ i, Summary ("p" +:+ pretty i) size) (seq 0 1000)))
          (Some 1000).

(** Keys below a prefix without and with digits. *)
Definition csv_bucket (dir : string) : world :=
  World (<[dir +:+ "data_0.csv" := "zero"]> (<[dir +:+ "data_5.csv" := "five"]> ∅)) [].

(** One object of 2^40 + 1 bytes, as a listing reports it. *)
Definition one_huge_object : listing :=
  Listing (Some [Summary "backup.tar" (2 ^ 40 + 1)]) (Some 1).

(** Writing the lines of a table back as text. *)
Definition line_writer : @CsvWriter line_frames := {|
  to_csv := λ d : @DataFrame line_frames,
    String.concat (String "010" EmptyString) (d : list string)
|}.

(** A local disk as the folders made and the files written, by path;
    downloads take their content from [bucket]. *)
Record flat_disk : Type := FlatDisk {
  folders : gset string;
  written : gmap string string
}.

Definition flat_disk_ops (bucket : world) : LocalDisk := {|
  s3_file_ops.disk := flat_disk;
  os_path_exists := λ d p,
    bool_decide (p ∈ folders d) || bool_decide (is_Some (written d !! p));
  os_makedirs := λ p d,
    if bool_decide (p ∈ folders d) then Raise (Exception_ "FileExistsError")
    else Ret (FlatDisk ({[p]} ∪ folders d) (written d));
  download_file := λ key path d,
    match objects bucket !! key with
    | Some body => Ret (FlatDisk (folders d) (<[path := body]> (written d)))
    | None => Raise (ClientError "404 Not Found")
    end
|}.

(** The pages of [two_objects]: under [logs/] one page with the two keys
    and no sub-folder, elsewhere one empty page. *)
Definition logs_pages : Paginator := {|
  paginate := λ Prefix,
    if String.eqb Prefix "logs/"
    then [Page None (Some ["logs/a.bin"; "logs/b.bin"])]
    else [Page None None]
|}.

End samples.

(** ** Vocabulary of the properties *)

Section vocabulary.
Context `{Re} `{Pandas}.
Import s3_file_ops.

(** The listed objects whose key the compiled prefix matches. *)
Definition matched_objects (re_prefix : pattern) (response : listing)
  : list object_summary :=
  filter (λ o, re_match re_prefix (Key o)) (default [] (Contents response)).

Definition sum_of (sizes : list Z) : Z := foldr Z.add 0 sizes.

(** The shape of the result that stands for "at least this much": a [str]
    that starts with [>]. *)
Definition is_lower_bound (v : pyval) : bool :=
  match v with
  | PyStr s => PyStr.startswith ">" s
  | _ => false
  end.

(** Fetch and parse the given keys in order, stopping at the first
    failure. *)
Fixpoint fetch_all (w : world) (bucket : string) (keys : list string)
  : result (list DataFrame) :=
  match keys with
  | [] => Ret []
  | k :: ks =>
      rbind (fst (pd_read_csv_s3 bucket k w)) (λ d,
      rbind (fetch_all w bucket ks) (λ ds, Ret (d :: ds)))
  end.

End vocabulary.

(** ** Vocabulary of the further properties *)

Section vocabulary_more.
Context `{Os} `{Pandas}.
Import s3_file_ops.

(** Open and parse the given local paths in order, stopping at the first
    failure. *)
Fixpoint load_paths (paths : list string) : result (list DataFrame) :=
  match paths with
  | [] => Ret []
  | p :: ps =>
      rbind (codecs_open p) (λ f,
      rbind (pd_read_table f) (λ d,
      rbind (load_paths ps) (λ ds, Ret (d :: ds))))
  end.

(** The bytes of the first page of keys under a prefix. *)
Definition first_page_total (w : world) (Prefix : string) : Z :=
  sum_of (map (size_of w) (take page_cap (keys_under w Prefix))).

(** The path [directory] as [get_list_of_subdir_in_dir] writes it. *)
Definition with_trailing_sep (root : string) : string :=
  if negb (file_ops.search_trailing_sep root) then root +:+ os_path.sep else root.

(** Whether the filter of a call without regex lets the path [f] through. *)
Definition accepts (substrings : file_ops.substrings_arg) (f : string) : bool :=
  match substrings with
  | file_ops.SubNone => true
  | file_ops.SubStr s => file_ops.all_substrings_in f (PyStr.split " " s)
  | file_ops.SubList l => file_ops.all_substrings_in f l
  end.

(** The directories whose entries a call lists. *)
Definition listed_dirs (directory : string) (subfolders : bool) : list string :=
  (if subfolders then file_ops.get_list_of_subdir_in_dir directory else [])
  ++ [directory].

End vocabulary_more.

(** * Properties *)

(** ** The size formatter *)

Section size_formatter.
Import s3_file_ops.

Lemma gt_power_float m k :
  0 ≤ k → gt_power (NFloat m k) = true ↔ 2 ^ (k + 10) < m.
Proof.
  intros Hk. unfold gt_power, power. rewrite Z.ltb_lt.
  rewrite Z.pow_add_r by lia. lia.
Qed.

(** The loop on a float: with enough rounds left it stops after [j] more
    divisions, where [j] is the first count that brings the value down to
    1024 or below. *)
Lemma while_float fuel : ∀ m k n,
  0 ≤ k → m ≤ 2 ^ (k + 10 + 10 * Z.of_nat fuel) →
  ∃ j, 0 ≤ j ∧
       while_gt_power fuel (NFloat m k) n = Some (Ret (NFloat m (k + 10 * j), n + j)) ∧
       m ≤ 2 ^ (k + 10 * j + 10) ∧
       (0 < j → 2 ^ (k + 10 * j) < m).
Proof.
  induction fuel as [|fuel IH]; intros m k n Hk Hm.
  - exists 0. replace (k + 10 + 10 * Z.of_nat 0) with (k + 10) in Hm by lia.
    assert (gt_power (NFloat m k) = false) as Hgt.
    { apply not_true_is_false. rewrite gt_power_float by done. lia. }
    cbn [while_gt_power]. rewrite Hgt.
    replace (k + 10 * 0) with k by lia. replace (n + 0) with n by lia.
    repeat split; [lia | lia | lia].
  - destruct (gt_power (NFloat m k)) eqn:Hgt.
    + apply gt_power_float in Hgt; [|done].
      assert (m ≤ 2 ^ (k + 10 + 10 + 10 * Z.of_nat fuel)) as Hm'.
      { replace (k + 10 + 10 + 10 * Z.of_nat fuel)
          with (k + 10 + 10 * Z.of_nat (S fuel)) by lia. done. }
      assert (0 ≤ k + 10) as Hk' by lia.
      destruct (IH m (k + 10) (n + 1) Hk' Hm') as (j & Hj & Hrun & Hle & Hlt).
      exists (j + 1). split; [lia|]. split.
      { cbn [while_gt_power]. rewrite (proj2 (gt_power_float m k Hk) Hgt).
        cbn [div_power]. rewrite Hrun.
        replace (k + 10 + 10 * j) with (k + 10 * (j + 1)) by lia.
        replace (n + 1 + j) with (n + (j + 1)) by lia. done. }
      split.
      { replace (k + 10 * (j + 1) + 10) with (k + 10 + 10 * j + 10) by lia. done. }
      intros _. destruct (decide (j = 0)) as [->|Hne].
      * replace (k + 10 * (0 + 1)) with (k + 10) by lia. done.
      * replace (k + 10 * (j + 1)) with (k + 10 + 10 * j) by lia. apply Hlt. lia.
    + exists 0. cbn [while_gt_power]. rewrite Hgt.
      replace (k + 10 * 0) with k by lia. replace (n + 0) with n by lia.
      split; [lia|]. split; [done|]. split; [|lia].
      destruct (Z_lt_le_dec (2 ^ (k + 10)) m) as [Hlt|Hle]; [|done].
      apply gt_power_float in Hlt; [congruence | done].
Qed.

Lemma round53_small a : a < 2 ^ 53 → round53 a = a.
Proof.
  intros Ha. unfold round53.
  destruct (Z_le_gt_dec a 0) as [Hneg|Hpos].
  - rewrite Z.log2_nonpos by done. done.
  - assert (Z.log2 a < 53) by (apply Z.log2_lt_pow2; lia).
    destruct (Z.leb_spec (Z.log2 a + 1) 53); [done | lia].
Qed.

(** Rounding to 53 bits keeps the binary order of magnitude. *)
Lemma round53_bounds a :
  0 < a → 2 ^ Z.log2 a ≤ round53 a ≤ 2 ^ (Z.log2 a + 1).
Proof.
  intros Ha. pose proof (Z.log2_spec a Ha) as [Hlo Hhi].
  unfold round53. destruct (Z.leb_spec (Z.log2 a + 1) 53) as [|Hbig].
  { replace (Z.succ (Z.log2 a)) with (Z.log2 a + 1) in Hhi by lia. lia. }
  set (sh := Z.log2 a + 1 - 53).
  assert (0 < sh) as Hsh by (unfold sh; lia).
  set (q := Z.shiftr a sh).
  assert (2 ^ 52 ≤ q < 2 ^ 53) as Hq.
  { unfold q. rewrite Z.shiftr_div_pow2 by lia. split.
    - apply Z.div_le_lower_bound; [lia|].
      rewrite <- Z.pow_add_r by lia.
      replace (sh + 52) with (Z.log2 a) by (unfold sh; lia). done.
    - apply Z.div_lt_upper_bound; [lia|].
      rewrite <- Z.pow_add_r by lia.
      replace (sh + 53) with (Z.succ (Z.log2 a)) by (unfold sh; lia). done. }
  match goal with |- _ ≤ Z.shiftl ?m sh ≤ _ => set (mm := m) end.
  assert (q ≤ mm ≤ q + 1) as Hmm by (unfold mm; case_match; lia).
  rewrite Z.shiftl_mul_pow2 by lia.
  replace (Z.log2 a) with (52 + sh) at 1 by (unfold sh; lia).
  replace (Z.log2 a + 1) with (53 + sh) by (unfold sh; lia).
  rewrite !Z.pow_add_r by lia.
  assert (0 < 2 ^ sh) by lia. nia.
Qed.

Lemma power_labels_miss n : 4 ≤ n → power_labels !! n = None.
Proof.
  intros Hn. unfold power_labels.
  rewrite !lookup_insert_ne by lia. apply lookup_empty.
Qed.

Lemma format_small size :
  size ≤ 1024 → _format_file_size size = Ret (PyStr.str_of_int size +:+ " B").
Proof.
  intros Hs. unfold _format_file_size, rounds_for. cbn [while_gt_power].
  assert (gt_power (NInt size) = false) as ->.
  { unfold gt_power, power. apply Z.ltb_ge. lia. }
  reflexivity.
Qed.

(** Above 1024 the loop runs [1 + j] divisions, [j] being fixed by the
    magnitude of the (rounded) size, and the label is then looked up. *)
Lemma format_large size :
  1024 < size → round53 size < 2 ^ 1034 →
  ∃ j, 0 ≤ j ∧
       round53 size ≤ 2 ^ (20 + 10 * j) ∧
       (0 < j → 2 ^ (10 + 10 * j) < round53 size) ∧
       _format_file_size size =
         match power_labels !! (1 + j) with
         | None => Raise (KeyError (1 + j))
         | Some label =>
             Ret (str_round2 (NFloat (round53 size) (10 + 10 * j))
                  +:+ " " +:+ label +:+ "B")
         end.
Proof.
  intros Hs Hno. pose proof (round53_bounds size ltac:(lia)) as [_ Hup].
  assert (0 ≤ Z.log2 size) as Hlog by apply Z.log2_nonneg.
  destruct (while_float (Z.to_nat (Z.log2 size)) (round53 size) 10 (0 + 1))
    as (j & Hj & Hrun & Hle & Hlt); [lia| |].
  { etrans; [exact Hup|]. apply Z.pow_le_mono_r; lia. }
  exists j. split; [done|]. split.
  { replace (20 + 10 * j) with (10 + 10 * j + 10) by lia. done. }
  split; [done|].
  unfold _format_file_size, rounds_for. cbn [while_gt_power].
  assert (gt_power (NInt size) = true) as ->.
  { unfold gt_power, power. apply Z.ltb_lt. lia. }
  cbn [div_power].
  destruct (Z.leb_spec (2 ^ 1034) (round53 size)) as [Hov|_]; [lia|].
  rewrite Hrun. replace (0 + 1 + j) with (1 + j) by lia. reflexivity.
Qed.

(** The unit is the one of the magnitude: [n] divisions for a size in
    (1024^n, 1024^(n+1)]. *)
Lemma format_unit size n :
  1 ≤ n → 2 ^ (10 * n) < size ≤ 2 ^ (10 * n + 10) → size < 2 ^ 53 →
  _format_file_size size =
    match power_labels !! n with
    | None => Raise (KeyError n)
    | Some label =>
        Ret (str_round2 (NFloat size (10 * n)) +:+ " " +:+ label +:+ "B")
    end.
Proof.
  intros Hn [Hlo Hhi] H53.
  assert (1024 < size) as Hs.
  { eapply Z.le_lt_trans; [|exact Hlo].
    change 1024 with (2 ^ 10). apply Z.pow_le_mono_r; lia. }
  pose proof (round53_small size H53) as Hr.
  destruct (format_large size Hs) as (j & Hj & Hle & Hlt & Hfmt).
  { rewrite Hr. eapply Z.lt_trans; [exact H53|]. apply Z.pow_lt_mono_r; lia. }
  rewrite Hr in Hle, Hlt.
  assert (10 * n < 20 + 10 * j) as H1.
  { apply (Z.pow_lt_mono_r_iff 2); [lia|lia|]. lia. }
  assert (j < n) as H2.
  { destruct (decide (j = 0)) as [->|Hne]; [lia|].
    assert (10 + 10 * j < 10 * n + 10); [|lia].
    apply (Z.pow_lt_mono_r_iff 2); [lia|lia|]. specialize (Hlt ltac:(lia)). lia. }
  assert (j = n - 1) as -> by lia.
  rewrite Hfmt, Hr.
  replace (1 + (n - 1)) with n by lia. replace (10 + 10 * (n - 1)) with (10 * n) by lia.
  reflexivity.
Qed.

(** Past 1024^4 the loop leaves the table. *)
Lemma format_past_table size :
  1024 ^ 4 < size → size < 2 ^ 1033 →
  ∃ n, 4 ≤ n ∧ power_labels !! n = None ∧ _format_file_size size = Raise (KeyError n).
Proof.
  intros Hlo Hhi.
  assert (0 < size) as Hpos by lia.
  pose proof (round53_bounds size Hpos) as [Hrlo Hrhi].
  assert (Z.log2 size < 1033) as Hlog by (apply Z.log2_lt_pow2; lia).
  assert (40 ≤ Z.log2 size) as Hlog'.
  { apply Z.log2_le_pow2; [lia|]. change (1024 ^ 4) with (2 ^ 40) in Hlo. lia. }
  assert (2 ^ 40 < round53 size) as Hm.
  { destruct (Z_lt_le_dec size (2 ^ 53)) as [Hs|Hs].
    - rewrite round53_small by done. change (1024 ^ 4) with (2 ^ 40) in Hlo. lia.
    - eapply Z.lt_le_trans; [|exact Hrlo].
      apply Z.pow_lt_mono_r; [lia|lia|].
      assert (53 ≤ Z.log2 size); [|lia]. apply Z.log2_le_pow2; lia. }
  destruct (format_large size) as (j & Hj & Hle & _ & Hfmt).
  { change (1024 ^ 4) with 1099511627776 in Hlo. lia. }
  { eapply Z.le_lt_trans; [exact Hrhi|]. apply Z.pow_lt_mono_r; lia. }
  assert (40 < 20 + 10 * j) as Hj'.
  { apply (Z.pow_lt_mono_r_iff 2); [lia|lia|]. lia. }
  exists (1 + j). split; [lia|]. split; [apply power_labels_miss; lia|].
  rewrite Hfmt, power_labels_miss by lia. reflexivity.
Qed.

(** The rounds granted to the loop always suffice. *)
Lemma format_file_size_within_budget size :
  _format_file_size size ≠ Raise LoopBudget.
Proof.
  destruct (Z_le_gt_dec size 1024) as [Hs|Hs].
  { by rewrite format_small. }
  destruct (Z_lt_le_dec (round53 size) (2 ^ 1034)) as [Hr|Hr].
  - destruct (format_large size) as (j & _ & _ & _ & ->); [lia|done|].
    by destruct (power_labels !! (1 + j)).
  - unfold _format_file_size, rounds_for. cbn [while_gt_power].
    assert (gt_power (NInt size) = true) as ->.
    { unfold gt_power, power. apply Z.ltb_lt. lia. }
    cbn [div_power].
    destruct (Z.leb_spec (2 ^ 1034) (round53 size)) as [_|Hlt]; [done|lia].
Qed.
End size_formatter.

(** ** [S3os.exists] *)

Section exists_results.
Import s3_file_ops.
Context `{Re}.

Lemma matched_size_from (re_prefix : pattern) (contents : list object_summary) acc :
  foldl (λ size obj, if re_match re_prefix (Key obj) then size + Size obj else size)
        acc contents
  = acc + sum_of (Size <$> filter (λ o, re_match re_prefix (Key o)) contents).
Proof.
  revert acc. induction contents as [|o contents IH]; intros acc.
  - cbn. lia.
  - cbn [foldl]. rewrite IH. destruct (re_match re_prefix (Key o)) eqn:Hm.
    + rewrite filter_cons_True by (rewrite Hm; done).
      rewrite fmap_cons. unfold sum_of. cbn [foldr]. lia.
    + rewrite filter_cons_False by (rewrite Hm; exact id). done.
Qed.

Lemma matched_size_total (re_prefix : pattern) (response : listing) :
  matched_size re_prefix (default [] (Contents response))
  = sum_of (Size <$> matched_objects re_prefix response).
Proof. unfold matched_size, matched_objects. rewrite matched_size_from. lia. Qed.

(** [exists] once the prefix has compiled, in terms of the matched sum_of. *)
Lemma exists_on_compiled response key_prefix re_prefix format_size :
  re_compile key_prefix = Ret re_prefix →
  exists_on response key_prefix format_size =
    let size := sum_of (Size <$> matched_objects re_prefix response) in
    if size =? 0 then Ret PyNone
    else
      rbind (if format_size
             then rbind (_format_file_size size) (λ s, Ret (PyStr s))
             else Ret (PyInt size)) (λ size,
      if bool_decide (KeyCount response = Some 1000)
      then Ret (PyStr (">" +:+ str_of_size size))
      else Ret size).
Proof.
  intros Hc. unfold exists_on. rewrite Hc. cbn [rbind].
  rewrite matched_size_total. reflexivity.
Qed.

Lemma exists_on_absent response key_prefix re_prefix format_size :
  re_compile key_prefix = Ret re_prefix →
  sum_of (Size <$> matched_objects re_prefix response) = 0 →
  exists_on response key_prefix format_size = Ret PyNone.
Proof.
  intros Hc Hz. rewrite (exists_on_compiled _ _ _ _ Hc). cbn zeta. rewrite Hz. done.
Qed.
End exists_results.

(** The sample bucket lists as the sample page. *)
Example two_objects_listed :
  fst (s3_file_ops.list_objects_v2 "logs/" samples.two_objects) = Ret samples.two_listed.
Proof. vm_compute. reflexivity. Qed.



Lemma lower_bound_prefixed s : is_lower_bound (PyStr (">" +:+ s)) = true.
Proof. destruct s; reflexivity. Qed.

(** C3, as the code has it.  On a listing whose key count is 1000, [exists]
    returns [None] when the matched sizes add up to zero; otherwise it returns
    a plain [str], the character [>] followed by the decimal total, or by the
    formatted size when [format_size] is set and the formatter returns.  The
    lower bound is told apart from an exact result by that leading character
    only. *)
Theorem exists_full_page_prefixed_string `{Re}
    (response : s3_file_ops.listing) (key_prefix : string) (re_prefix : pattern) :
  re_compile key_prefix = Ret re_prefix →
  s3_file_ops.KeyCount response = Some 1000 →
  let size := sum_of (s3_file_ops.Size <$> matched_objects re_prefix response) in
  (size = 0 → ∀ format_size,
     s3_file_ops.exists_on response key_prefix format_size = Ret PyNone) ∧
  (size ≠ 0 →
     s3_file_ops.exists_on response key_prefix false
     = Ret (PyStr (">" +:+ PyStr.str_of_int size))) ∧
  (size ≠ 0 → ∀ s, s3_file_ops._format_file_size size = Ret s →
     s3_file_ops.exists_on response key_prefix true = Ret (PyStr (">" +:+ s))) ∧
  (size ≠ 0 → ∀ format_size v,
     s3_file_ops.exists_on response key_prefix format_size = Ret v →
     is_lower_bound v = true).
Proof.
  intros Hc Hpage size.
  assert (∀ fmt, size ≠ 0 →
            s3_file_ops.exists_on response key_prefix fmt
            = rbind (if fmt
                     then rbind (s3_file_ops._format_file_size size) (λ s, Ret (PyStr s))
                     else Ret (PyInt size))
                    (λ v, Ret (PyStr (">" +:+ s3_file_ops.str_of_size v)))) as Hrun.
  { intros fmt Hne. rewrite (exists_on_compiled _ _ _ _ Hc). cbn zeta. fold size.
    destruct (Z.eqb_spec size 0) as [|_]; [done|].
    rewrite bool_decide_eq_true_2 by done. reflexivity. }
  split; [|split; [|split]].
  - intros Hz fmt. by apply (exists_on_absent _ _ _ _ Hc).
  - intros Hne. rewrite Hrun by done. reflexivity.
  - intros Hne s Hs. rewrite Hrun by done. rewrite Hs. reflexivity.
  - intros Hne fmt v. rewrite Hrun by done.
    destruct fmt; [destruct (s3_file_ops._format_file_size size)|]; cbn;
      intros Hv; inversion Hv; subst; apply lower_bound_prefixed.
Qed.

Lemma exists_full_page_prefixed_string_witness :
  @s3_file_ops.exists_on literal_re (samples.full_page 2) "p" false = Ret (PyStr ">2000") ∧
  @s3_file_ops.exists_on literal_re (samples.full_page 2) "p" true = Ret (PyStr ">1.95 kB").
Proof.
  destruct (@exists_full_page_prefixed_string literal_re (samples.full_page 2) "p" "p"
              eq_refl eq_refl) as (_ & Hint & Hfmt & _).
  split.
  - apply Hint. vm_compute. discriminate.
  - apply (Hfmt ltac:(vm_compute; discriminate) "1.95 kB"). vm_compute. reflexivity.
Defined.

(** C3 as stated fails: a full page of 1000 empty objects has key count 1000,
    and [exists] answers [None], which is no lower-bound result. *)
Lemma exists_full_page_of_empty_objects :
  s3_file_ops.KeyCount (samples.full_page 0) = Some 1000 ∧
  ¬ ∃ v, @s3_file_ops.exists_on literal_re (samples.full_page 0) "p" false = Ret v ∧
         is_lower_bound v = true.
Proof.
  split; [reflexivity|].
  assert (@s3_file_ops.exists_on literal_re (samples.full_page 0) "p" false = Ret PyNone)
    as Hrun by (vm_compute; reflexivity).
  intros (v & Hv & Hb). rewrite Hrun in Hv. inversion Hv; subst. discriminate.
Qed.

(** C10.  With [format_size] set, a matched total above 1024^4 bytes makes
    the loop count at least four divisions; the label table stops at three,
    so [exists] raises [KeyError] and returns nothing.  (The bound 2^1033 is
    far beyond any total the service can report; it keeps the first division
    within the range of a float.) *)
Theorem exists_format_size_leaves_label_table `{Re}
    (response : s3_file_ops.listing) (key_prefix : string) (re_prefix : pattern) :
  re_compile key_prefix = Ret re_prefix →
  let size := sum_of (s3_file_ops.Size <$> matched_objects re_prefix response) in
  1024 ^ 4 < size → size < 2 ^ 1033 →
  ∃ n, 4 ≤ n ∧ s3_file_ops.power_labels !! n = None ∧
       s3_file_ops.exists_on response key_prefix true = Raise (KeyError n).
Proof.
  intros Hc size Hlo Hhi.
  destruct (format_past_table size Hlo Hhi) as (n & Hn & Hmiss & Hfmt).
  exists n. split; [done|]. split; [done|].
  rewrite (exists_on_compiled _ _ _ _ Hc). cbn zeta. fold size.
  destruct (Z.eqb_spec size 0) as [Hz|_].
  { rewrite Hz in Hlo. change (1024 ^ 4) with 1099511627776 in Hlo. lia. }
  rewrite Hfmt. reflexivity.
Qed.

Lemma exists_format_size_leaves_label_table_witness :
  ∃ n, 4 ≤ n ∧ s3_file_ops.power_labels !! n = None ∧
       @s3_file_ops.exists_on literal_re samples.one_huge_object "backup" true
       = Raise (KeyError n).
Proof.
  apply (@exists_format_size_leaves_label_table literal_re samples.one_huge_object
           "backup" "backup" eq_refl).
  - vm_compute. reflexivity.
  - vm_compute. reflexivity.
Defined.

(** ** [S3os.rename] and [S3os.create_if_not_exists] *)

Section adapter_updates.
Import s3_file_ops.

Lemma delete_is_no_attribute : bool_decide ("delete" ∈ S3os_attributes) = false.
Proof. vm_compute. reflexivity. Qed.

Lemma rename_run self old_key new_key w :
  rename self old_key new_key w =
    match objects w !! old_key with
    | Some body =>
        (Raise (AttributeError "S3os" "delete"),
         World (<[new_key := body]> (objects w)) (log w))
    | None => (Raise (ClientError "404 Not Found"), w)
    end.
Proof.
  unfold rename, bind, copy, client_copy, call_attribute.
  destruct (objects w !! old_key); [|reflexivity].
  rewrite delete_is_no_attribute. reflexivity.
Qed.

Lemma bucket_name_listing_empty w Prefix :
  keys_under w Prefix = [] →
  list_objects_v2 Prefix w = (Ret (Listing None (Some 0)), w).
Proof. intros Hk. unfold list_objects_v2. rewrite Hk. reflexivity. Qed.
End adapter_updates.

(** C1, what the code does.  Whenever [old_key] is present, [rename] copies
    it to [new_key] and then raises [AttributeError] on [self.delete]: the
    class has [remove], not [delete].  The old key is still there. *)
Theorem rename_raises_before_delete
    (self : s3_file_ops.S3os) (old_key new_key : string)
    (w : s3_file_ops.world) (body : string) :
  s3_file_ops.objects w !! old_key = Some body →
  ∃ w', s3_file_ops.rename self old_key new_key w
        = (Raise (AttributeError "S3os" "delete"), w') ∧
        s3_file_ops.objects w' !! new_key = Some body ∧
        s3_file_ops.objects w' !! old_key = Some body.
Proof.
  intros Hold. rewrite rename_run, Hold. eexists. split; [reflexivity|].
  cbn [s3_file_ops.objects]. split; [apply lookup_insert_eq|].
  destruct (decide (new_key = old_key)) as [->|Hne].
  - apply lookup_insert_eq.
  - rewrite lookup_insert_ne by done. done.
Qed.

Lemma rename_raises_before_delete_witness :
  ∃ w', s3_file_ops.rename samples.adapter "k" "k2" samples.one_object
        = (Raise (AttributeError "S3os" "delete"), w') ∧
        s3_file_ops.objects w' !! "k2" = Some "12345" ∧
        s3_file_ops.objects w' !! "k" = Some "12345".
Proof.
  apply (rename_raises_before_delete samples.adapter "k" "k2" samples.one_object "12345").
  vm_compute. reflexivity.
Defined.

(** C4, what the code does.  The existence test is made on the bucket name,
    not on [key]: when no key of the bucket starts with the bucket name, any
    non-empty [key] is written as an empty object, whether or not an object
    was already stored under it. *)
Theorem create_if_not_exists_tests_bucket_name `{Re}
    (self : s3_file_ops.S3os) (key : string) (w : s3_file_ops.world)
    (re_prefix : pattern) :
  re_compile (s3_file_ops.bucket_name self) = Ret re_prefix →
  s3_file_ops.keys_under w (s3_file_ops.bucket_name self) = [] →
  key ≠ EmptyString →
  s3_file_ops.create_if_not_exists self key w
  = (Ret tt,
     s3_file_ops.World (<[key := EmptyString]> (s3_file_ops.objects w))
       (s3_file_ops.log w ++ ["Following folder/file created: " +:+ key])).
Proof.
  intros Hc Hk Hkey.
  unfold s3_file_ops.create_if_not_exists, s3_file_ops.exists_, s3_file_ops.bind.
  rewrite bucket_name_listing_empty by done.
  unfold s3_file_ops.lift.
  rewrite (exists_on_absent _ _ re_prefix) by done.
  unfold s3_file_ops.put_object.
  destruct (String.eqb_spec key EmptyString) as [|_]; [done|].
  reflexivity.
Qed.

Lemma create_if_not_exists_tests_bucket_name_witness :
  fst (@s3_file_ops.exists_ literal_re samples.adapter "k" false samples.one_object)
  = Ret (PyInt 5) ∧
  s3_file_ops.objects samples.one_object !! "k" = Some "12345" ∧
  s3_file_ops.objects
    (snd (@s3_file_ops.create_if_not_exists literal_re samples.adapter "k"
            samples.one_object)) !! "k" = Some EmptyString.
Proof.
  split; [vm_compute; reflexivity|]. split; [vm_compute; reflexivity|].
  rewrite (@create_if_not_exists_tests_bucket_name literal_re samples.adapter "k"
             samples.one_object "b" eq_refl).
  - apply lookup_insert_eq.
  - vm_compute. reflexivity.
  - discriminate.
Defined.

(** ** [file_ops]: names of paths *)

(** C6, what the code does.  For a single path the function reads the name
    [this_path], which exists only inside the comprehension of the list
    branch, and raises [NameError] whatever the path. *)
Theorem get_dir_names_single_path_raises (path : string) :
  file_ops.get_dir_names_from_paths (list_ops.OnePath path)
  = Raise (NameError "this_path").
Proof.
  unfold file_ops.get_dir_names_from_paths, file_ops.load_global.
  assert (bool_decide ("this_path" ∈ file_ops.module_globals) = false) as ->
    by (vm_compute; reflexivity).
  reflexivity.
Qed.

(** The list branch: paths that share one parent give that parent, with the
    separator, once. *)
Lemma get_dir_names_shared_parent (paths : list string) (parent : string) :
  paths ≠ [] →
  (∀ p, p ∈ paths → os_path.dirname p = parent) →
  file_ops.get_dir_names_from_paths (list_ops.ManyPaths paths)
  = Ret (file_ops.ManyNames [parent +:+ os_path.sep]).
Proof.
  intros Hne Hall. unfold file_ops.get_dir_names_from_paths. do 2 f_equal.
  assert (list_to_set (map (λ this_path, os_path.dirname this_path +:+ os_path.sep) paths)
          = ({[ parent +:+ os_path.sep ]} : gset string)) as ->; [|apply elements_singleton].
  apply set_eq. intros x. rewrite elem_of_list_to_set, elem_of_singleton.
  rewrite list_elem_of_In, in_map_iff. split.
  - intros (p & <- & Hin). rewrite (Hall p); [done|]. by apply list_elem_of_In.
  - intros ->. destruct paths as [|p paths]; [done|].
    exists p. split; [|left; done]. rewrite (Hall p); [done|]. left.
Qed.

(** The list branch never repeats a directory. *)
Lemma get_dir_names_unique (paths : list string) :
  ∃ dirs, file_ops.get_dir_names_from_paths (list_ops.ManyPaths paths)
          = Ret (file_ops.ManyNames dirs) ∧
          NoDup dirs ∧
          ∀ d, d ∈ dirs ↔ ∃ p, p ∈ paths ∧ d = os_path.dirname p +:+ os_path.sep.
Proof.
  eexists. split; [reflexivity|]. split; [apply NoDup_elements|].
  intros d. rewrite elem_of_elements, elem_of_list_to_set.
  rewrite list_elem_of_In, in_map_iff. split.
  - intros (p & <- & Hin). exists p. split; [by apply list_elem_of_In|done].
  - intros (p & Hin & ->). exists p. split; [done|by apply list_elem_of_In].
Qed.

(** ** [file_ops]: listing a directory *)

Section local_listing.
Import file_ops.
Context `{Re} `{Os}.

Lemma all_substrings_in_spec f substrings :
  all_substrings_in f substrings = true ↔
  ∀ s, s ∈ substrings → PyStr.contains (PyStr.upper s) (PyStr.upper f) = true.
Proof.
  unfold all_substrings_in. rewrite forallb_forall.
  split; intros Hall s Hs; apply Hall; by apply list_elem_of_In.
Qed.

(** The literal branch keeps the paths of [glob] that pass the test, which
    looks at the whole path. *)
Lemma literal_branch_yields directory substrings :
  ∀ f, f ∈ yields (own_entries directory (SubList substrings) false) ↔
       f ∈ glob_glob (os_path.join directory "*") ∧
       all_substrings_in f substrings = true.
Proof.
  intros f. cbn. rewrite list_elem_of_filter, Is_true_true. tauto.
Qed.

Lemma gen_seq_done_l {A} (g : gen A) : gen_seq gen_done g = g.
Proof. by destruct g. Qed.

Lemma get_list_without_subfolders directory substrings regex :
  get_list_of_file_paths_in_dir directory substrings false regex
  = own_entries directory substrings regex.
Proof. unfold get_list_of_file_paths_in_dir. apply gen_seq_done_l. Qed.

Lemma gen_for_raised {A B} (xs : list A) (body : A → gen B) e :
  raised (gen_for xs body) = Some e → ∃ x, x ∈ xs ∧ raised (body x) = Some e.
Proof.
  induction xs as [|x xs IH]; [done|]. cbn [gen_for]. unfold gen_seq, raised.
  destruct (snd (body x)) as [e'|] eqn:Hx.
  - intros He. exists x. split; [left|]. unfold raised. congruence.
  - cbn. intros He. destruct (IH He) as (y & Hy & Hr). exists y. split; [by right|done].
Qed.

Lemma gen_for_quiet {A B} (xs : list A) (body : A → gen B) :
  (∀ x, raised (body x) = None) → raised (gen_for xs body) = None.
Proof.
  intros Hq. destruct (raised (gen_for xs body)) as [e|] eqn:Hr; [|done].
  destruct (gen_for_raised _ _ _ Hr) as (x & _ & Hx). rewrite Hq in Hx. done.
Qed.

Lemma regex_loop_raised s paths e :
  raised (regex_loop s paths) = Some e → re_compile s = Raise e.
Proof.
  induction paths as [|f paths IH]; [done|]. cbn [regex_loop].
  destruct (re_compile s) as [p|e'] eqn:Hc.
  - destruct (re_search p (os_path.basename f)); [|exact IH].
    unfold gen_yield, raised. cbn. exact IH.
  - unfold gen_raise, raised. cbn. congruence.
Qed.

Lemma regex_loop_no_pattern s paths e :
  re_compile s = Raise e → yields (regex_loop s paths) = [].
Proof. intros Hc. destruct paths; [done|]. cbn [regex_loop]. by rewrite Hc. Qed.

(** When the listing of one directory ends with an exception, the cause
    lies in the arguments, and no directory yields anything. *)
Lemma own_entries_raised directory other substrings regex e :
  raised (own_entries directory substrings regex) = Some e →
  yields (own_entries other substrings regex) = [].
Proof.
  unfold own_entries. destruct regex, substrings; try done.
  intros Hr. apply regex_loop_raised in Hr. by apply regex_loop_no_pattern with e.
Qed.

Lemma own_entries_literal_quiet directory substrings :
  raised (own_entries directory substrings false) = None.
Proof. by destruct substrings. Qed.

Lemma get_list_literal_quiet directory substrings subfolders :
  raised (get_list_of_file_paths_in_dir directory substrings subfolders false) = None.
Proof.
  unfold get_list_of_file_paths_in_dir, gen_seq.
  set (descent := if subfolders then _ else _).
  assert (raised descent = None) as Hd.
  { unfold descent. destruct subfolders; [|done].
    apply gen_for_quiet. intros d. apply own_entries_literal_quiet. }
  unfold raised in Hd. rewrite Hd. apply own_entries_literal_quiet.
Qed.
End local_listing.

(** C9.  For every directory, filter and regex flag, every path yielded
    without [subfolders] is yielded, at least as many times, with it. *)
Theorem subfolders_yield_superset `{Re} `{Os}
    (directory : string) (substrings : file_ops.substrings_arg) (regex : bool) :
  yields (file_ops.get_list_of_file_paths_in_dir directory substrings false regex)
  ⊆+ yields (file_ops.get_list_of_file_paths_in_dir directory substrings true regex).
Proof.
  rewrite get_list_without_subfolders.
  unfold file_ops.get_list_of_file_paths_in_dir, gen_seq.
  set (descent := gen_for _ _).
  destruct (snd descent) as [e|] eqn:Hd.
  - destruct (gen_for_raised _ _ e Hd) as (d & _ & Hr).
    rewrite (own_entries_raised d directory _ _ e Hr). apply submseteq_nil_l.
  - unfold yields. cbn [fst]. apply submseteq_inserts_l. done.
Qed.

(** C2, what the code does.  In the directory [data], the filter [["data"]]
    accepts [data/x.txt]: the name of the directory satisfies the test, the
    base name [x.txt] does not. *)
Theorem literal_filter_reads_whole_path :
  yields (@file_ops.get_list_of_file_paths_in_dir literal_re (tree_fs.os_of samples.disk)
            "data" (file_ops.SubList ["data"]) false false)
  = ["data/x.txt"; "data/sub"] ∧
  file_ops.all_substrings_in "data/x.txt" ["data"] = true ∧
  file_ops.all_substrings_in (os_path.basename "data/x.txt") ["data"] = false.
Proof. repeat split; vm_compute; reflexivity. Qed.

(** ** The CSV aggregators *)

Section remote_aggregator.
Import s3_file_ops.
Context `{Pandas}.

Lemma fetch_all_same_objects (w1 w2 : world) bucket keys :
  objects w1 = objects w2 → fetch_all w1 bucket keys = fetch_all w2 bucket keys.
Proof.
  intros Hobj. induction keys as [|k keys IH]; [done|].
  cbn [fetch_all]. rewrite IH. unfold pd_read_csv_s3. rewrite Hobj.
  by destruct (objects w2 !! k).
Qed.

(** The loop reads exactly the keys that pass the test, in order, and
    touches nothing but the log. *)
Lemma read_listed_run self n_files files : ∀ idx all_df w,
  ∃ w', read_listed self idx n_files files all_df w
        = (rbind (fetch_all w (bucket_name self) (filter is_loaded files))
                 (λ dfs, Ret (all_df ++ dfs)), w') ∧
        objects w' = objects w.
Proof.
  induction files as [|file rest IH]; intros idx all_df w.
  - exists w. cbn. rewrite app_nil_r. done.
  - cbn [read_listed]. unfold bind at 1.
    set (note := if idx mod 50 =? 0 then _ else _).
    assert (∃ w1, note w = (Ret tt, w1) ∧ objects w1 = objects w) as (w1 & -> & Hw1).
    { unfold note. destruct (idx mod 50 =? 0); eexists; split; reflexivity. }
    destruct (is_loaded file) eqn:Hl.
    + rewrite filter_cons_True by (rewrite Hl; done).
      cbn [fetch_all]. unfold bind at 1.
      unfold pd_read_csv_s3 at 1 2. rewrite Hw1.
      destruct (objects w !! file) as [body|]; cbn [fst rbind].
      * destruct (pd_read_table body) as [d|e]; cbn [rbind].
        -- destruct (IH (idx + 1) (all_df ++ [d]) w1) as (w' & -> & Hw').
           exists w'. split; [|congruence].
           rewrite (fetch_all_same_objects w1 w) by done.
           destruct (fetch_all w (bucket_name self) (filter is_loaded rest)); cbn [rbind];
             [|done].
           by rewrite <- app_assoc.
        -- exists w1. done.
      * exists w1. done.
    + rewrite filter_cons_False by (rewrite Hl; exact id).
      destruct (IH (idx + 1) all_df w1) as (w' & -> & Hw').
      exists w'. split; [|congruence].
      by rewrite (fetch_all_same_objects w1 w).
Qed.

Lemma remote_aggregator_run self dir_path w :
  fst (read_all_csv_files_in_directory_as_one_df self dir_path w)
  = rbind (fetch_all w (bucket_name self) (filter is_loaded (keys_under w dir_path)))
          pd_concat.
Proof.
  unfold read_all_csv_files_in_directory_as_one_df, listdir, bucket_objects_filter.
  unfold bind at 1 2. unfold ret at 1. unfold bind at 1.
  destruct (read_listed_run self (Z.of_nat (List.length (keys_under w dir_path)))
              (keys_under w dir_path) 0 [] w) as (w' & -> & _).
  destruct (fetch_all w (bucket_name self) (filter is_loaded (keys_under w dir_path)))
    as [dfs|e]; cbn [rbind app]; [|done].
  unfold bind, lift, mem_check, ret. destruct (pd_concat dfs); done.
Qed.

Lemma endswith_app suf d t :
  PyStr.endswith suf t = true → PyStr.endswith suf (d +:+ t) = true.
Proof.
  intros Ht. induction d as [|c d IH]; [done|].
  change (String c d +:+ t) with (String c (d +:+ t)).
  cbn [PyStr.endswith]. rewrite IH. apply orb_true_r.
Qed.

Lemma first_digit_run_app d t :
  PyStr.first_digit_run d = None →
  PyStr.first_digit_run (d +:+ t) = PyStr.first_digit_run t.
Proof.
  induction d as [|c d IH]; [done|].
  change (String c d +:+ t) with (String c (d +:+ t)).
  cbn [PyStr.first_digit_run].
  destruct (PyStr.is_digit c); [done|]. exact IH.
Qed.

Lemma is_loaded_spec file :
  is_loaded file = true ↔
  PyStr.endswith ".csv" file = true ∧
  ∃ digits, PyStr.first_digit_run file = Some digits ∧ PyStr.int_of_digits digits ≠ 0.
Proof.
  unfold is_loaded.
  destruct (PyStr.endswith ".csv" file); cbn [andb].
  - destruct (PyStr.first_digit_run file) as [digits|].
    + rewrite bool_decide_eq_true_2 by eauto.
      rewrite negb_true_iff, Z.eqb_neq. split.
      * intros Hn. split; [done|]. by exists digits.
      * intros (_ & digits' & [= <-] & Hn). done.
    + rewrite bool_decide_eq_false_2 by (intros [? ?]; done).
      split; [done|]. intros (_ & ? & ? & _). done.
  - split; [done|]. intros [? _]. done.
Qed.
End remote_aggregator.

(** C7.  Both aggregators end in [pd.concat] of the frames they loaded; when
    no file was matched the list is empty and [pd.concat] raises the
    [ValueError] that the specification calls EmptyAggregation.  No table is
    returned. *)
Theorem aggregators_fail_on_empty_match `{Re} `{Os} `{Pandas} :
  (∀ folder_path substrings subfolders,
     yields (file_ops.get_list_of_file_paths_in_dir folder_path substrings subfolders false)
     = [] →
     file_ops.read_all_csv_files_in_directory_as_one_df folder_path substrings subfolders
     = Raise (ValueError "No objects to concatenate")) ∧
  (∀ self dir_path w,
     filter s3_file_ops.is_loaded (s3_file_ops.keys_under w dir_path) = [] →
     fst (s3_file_ops.read_all_csv_files_in_directory_as_one_df self dir_path w)
     = Raise (ValueError "No objects to concatenate")).
Proof.
  split.
  - intros folder_path substrings subfolders Hnone.
    unfold file_ops.read_all_csv_files_in_directory_as_one_df.
    rewrite Hnone, get_list_literal_quiet. reflexivity.
  - intros self dir_path w Hnone.
    rewrite remote_aggregator_run, Hnone. reflexivity.
Qed.

Lemma aggregators_fail_on_empty_match_witness :
  @file_ops.read_all_csv_files_in_directory_as_one_df
    literal_re (tree_fs.os_of samples.disk) line_frames "data" (file_ops.SubStr ".zip") true
  = Raise (ValueError "No objects to concatenate") ∧
  fst (@s3_file_ops.read_all_csv_files_in_directory_as_one_df
         line_frames samples.adapter "k" samples.one_object)
  = Raise (ValueError "No objects to concatenate").
Proof.
  destruct (@aggregators_fail_on_empty_match literal_re (tree_fs.os_of samples.disk)
              line_frames) as [Hlocal Hremote].
  split.
  - apply Hlocal. vm_compute. reflexivity.
  - apply Hremote. vm_compute. reflexivity.
Defined.

(** C8, as the code has it.  A listed key is loaded exactly when it ends in
    [.csv], holds a digit, and the first run of digits found anywhere in the
    key, its directory part included, is not the number zero; the table is
    the concatenation of the keys loaded, in listing order.  Below a prefix
    without digits, [data_0.csv] is skipped and [data_5.csv] is loaded. *)
Theorem remote_aggregator_skips_by_first_digit_run_of_key `{Pandas} :
  (∀ file,
     s3_file_ops.is_loaded file = true ↔
     PyStr.endswith ".csv" file = true ∧
     ∃ digits, PyStr.first_digit_run file = Some digits ∧
               PyStr.int_of_digits digits ≠ 0) ∧
  (∀ self dir_path w,
     fst (s3_file_ops.read_all_csv_files_in_directory_as_one_df self dir_path w)
     = rbind (fetch_all w (s3_file_ops.bucket_name self)
                (filter s3_file_ops.is_loaded (s3_file_ops.keys_under w dir_path)))
             pd_concat) ∧
  (∀ dir, PyStr.first_digit_run dir = None →
     s3_file_ops.is_loaded (dir +:+ "data_0.csv") = false ∧
     s3_file_ops.is_loaded (dir +:+ "data_5.csv") = true).
Proof.
  split; [exact is_loaded_spec|]. split; [exact remote_aggregator_run|].
  intros dir Hdir. unfold s3_file_ops.is_loaded.
  rewrite !endswith_app by reflexivity.
  rewrite !first_digit_run_app by done.
  split; vm_compute; reflexivity.
Qed.

Lemma remote_aggregator_skips_by_first_digit_run_of_key_witness :
  s3_file_ops.is_loaded "dir/data_0.csv" = false ∧
  s3_file_ops.is_loaded "dir/data_5.csv" = true ∧
  fst (@s3_file_ops.read_all_csv_files_in_directory_as_one_df
         line_frames samples.adapter "dir/" (samples.csv_bucket "dir/"))
  = Ret ["five"].
Proof.
  destruct (@remote_aggregator_skips_by_first_digit_run_of_key line_frames)
    as (_ & Hrun & Hdir).
  destruct (Hdir "dir/" eq_refl) as [H0 H5].
  split; [exact H0|]. split; [exact H5|].
  rewrite Hrun. vm_compute. reflexivity.
Defined.

(** C8 as stated fails: below the prefix [2019/] the first run of digits of
    either key is [2019], so [data_0.csv], whose own name carries the number
    zero, is loaded together with [data_5.csv]. *)
Lemma remote_aggregator_digit_in_directory :
  PyStr.first_digit_run (os_path.basename "2019/data_0.csv") = Some "0" ∧
  PyStr.int_of_digits "0" = 0 ∧
  s3_file_ops.is_loaded "2019/data_0.csv" = true ∧
  fst (@s3_file_ops.read_all_csv_files_in_directory_as_one_df
         line_frames samples.adapter "2019/" (samples.csv_bucket "2019/"))
  = Ret ["zero"; "five"] ∧
  fst (@s3_file_ops.read_all_csv_files_in_directory_as_one_df
         line_frames samples.adapter "2019/" (samples.csv_bucket "2019/"))
  ≠ Ret ["five"].
Proof.
  assert (fst (@s3_file_ops.read_all_csv_files_in_directory_as_one_df
                 line_frames samples.adapter "2019/" (samples.csv_bucket "2019/"))
          = Ret ["zero"; "five"]) as Hrun by (vm_compute; reflexivity).
  split; [vm_compute; reflexivity|]. split; [reflexivity|].
  split; [vm_compute; reflexivity|]. split; [exact Hrun|].
  rewrite Hrun. discriminate.
Qed.

(** * Further properties *)

(** ** [file_ops.change_permission] *)

(** X1.  With two [bool] flags and an existing path, the mode written gives
    the owner and the group the same rights, read exactly when [allow_read],
    write exactly when [allow_write], execute always, and gives everyone else
    nothing. *)
Theorem change_permission_bits
    (this_path : string) (allow_read allow_write : bool)
    (modes : gmap string Z) (old : Z) :
  modes !! this_path = Some old →
  ∃ mode,
    file_ops.change_permission this_path (file_ops.FlagBool allow_read)
      (file_ops.FlagBool allow_write) modes
    = Ret (<[this_path := mode]> modes) ∧
    Z.testbit mode 8 = allow_read ∧ Z.testbit mode 5 = allow_read ∧
    Z.testbit mode 7 = allow_write ∧ Z.testbit mode 4 = allow_write ∧
    Z.testbit mode 6 = true ∧ Z.testbit mode 3 = true ∧
    Z.land mode 7 = 0 ∧ 0 ≤ mode < 512.
Proof.
  intros Hold. unfold file_ops.change_permission, file_ops.os_chmod. rewrite Hold.
  destruct allow_read, allow_write; eexists; (split; [reflexivity|]);
    vm_compute; repeat split; congruence.
Qed.

Lemma change_permission_bits_witness :
  ∃ mode,
    file_ops.change_permission "notes.txt" (file_ops.FlagBool true)
      (file_ops.FlagBool false) (<["notes.txt" := 420]> ∅)
    = Ret (<["notes.txt" := mode]> (<["notes.txt" := 420]> ∅)) ∧
    Z.testbit mode 8 = true ∧ Z.testbit mode 5 = true ∧
    Z.testbit mode 7 = false ∧ Z.testbit mode 4 = false ∧
    Z.testbit mode 6 = true ∧ Z.testbit mode 3 = true ∧
    Z.land mode 7 = 0 ∧ 0 ≤ mode < 512.
Proof.
  apply (change_permission_bits "notes.txt" true false (<["notes.txt" := 420]> ∅) 420).
  apply lookup_insert_eq.
Defined.

(** X2.  A flag that is not a [bool] raises [AttributeError] before the path
    is looked at; with two [bool] flags a missing path raises
    [FileNotFoundError].  In both cases no mode is written. *)
Theorem change_permission_errors
    (this_path : string) (allow_read allow_write : file_ops.flag_arg)
    (modes : gmap string Z) :
  (file_ops.isinstance_bool allow_read && file_ops.isinstance_bool allow_write = false →
   ∃ variable msg,
     file_ops.change_permission this_path allow_read allow_write modes
     = Raise (AttributeError variable msg)) ∧
  (file_ops.isinstance_bool allow_read && file_ops.isinstance_bool allow_write = true →
   modes !! this_path = None →
   file_ops.change_permission this_path allow_read allow_write modes
   = Raise (FileNotFoundError this_path)).
Proof.
  unfold file_ops.change_permission, file_ops.os_chmod.
  destruct allow_read, allow_write; cbn; split; try done; eauto.
  intros _ ->. done.
Qed.

Lemma change_permission_errors_witness :
  (∃ variable msg,
     file_ops.change_permission "notes.txt" file_ops.FlagOther (file_ops.FlagBool true) ∅
     = Raise (AttributeError variable msg)) ∧
  file_ops.change_permission "notes.txt" (file_ops.FlagBool true) (file_ops.FlagBool true) ∅
  = Raise (FileNotFoundError "notes.txt").
Proof.
  split.
  - apply (change_permission_errors "notes.txt" file_ops.FlagOther (file_ops.FlagBool true) ∅).
    reflexivity.
  - apply (change_permission_errors "notes.txt" (file_ops.FlagBool true)
             (file_ops.FlagBool true) ∅); reflexivity.
Defined.

(** ** [file_ops]: sub-folders and listing *)

Section listing_more.
Import file_ops.
Context `{Re} `{Os}.

Lemma string_app_assoc (a b c : string) : (a +:+ b) +:+ c = a +:+ (b +:+ c).
Proof.
  induction a as [|x a IH]; [done|].
  change (String x ((a +:+ b) +:+ c) = String x (a +:+ (b +:+ c))). by rewrite IH.
Qed.

Lemma foldl_snoc_filter {A B} (g : A → B) (keep : B → bool) (xs : list A) acc :
  foldl (λ acc x, if keep (g x) then acc ++ [g x] else acc) acc xs
  = acc ++ filter (λ y, keep y) (map g xs).
Proof.
  revert acc. induction xs as [|x xs IH]; intros acc; cbn [foldl map].
  - by rewrite app_nil_r.
  - rewrite IH. destruct (keep (g x)) eqn:Hk.
    + rewrite filter_cons_True by (rewrite Hk; done). by rewrite <- app_assoc.
    + rewrite filter_cons_False by (rewrite Hk; exact id). done.
Qed.

(** The sub-folder list is the walk, each root with its separator, minus the
    checkpoint folders. *)
Lemma get_list_of_subdir_filter directory :
  get_list_of_subdir_in_dir directory
  = filter (λ root, negb (PyStr.contains ".ipynb_checkpoints" root))
           (map (λ item : walk_item, with_trailing_sep item.1.1) (os_walk directory)).
Proof.
  unfold get_list_of_subdir_in_dir.
  rewrite <- (app_nil_l (filter _ _)).
  rewrite <- (foldl_snoc_filter (λ item : walk_item, with_trailing_sep item.1.1)
                (λ root, negb (PyStr.contains ".ipynb_checkpoints" root))).
  reflexivity.
Qed.


Lemma join_star_with_trailing_sep directory :
  directory ≠ EmptyString →
  os_path.join (with_trailing_sep directory) "*" = os_path.join directory "*".
Proof.
  intros Hne. unfold with_trailing_sep.
  destruct (search_trailing_sep directory) eqn:Hs; cbn [negb]; [done|].
  unfold search_trailing_sep in Hs. apply orb_false_iff in Hs as [Hs _].
  unfold os_path.join, os_path.sep. cbn [PyStr.startswith String.prefix].
  rewrite Hs, endswith_app by done.
  destruct (String.eqb_spec directory EmptyString) as [|_]; [done|].
  rewrite orb_true_r. cbn [orb]. apply string_app_assoc.
Qed.

Lemma gen_for_yields_quiet {A B} (xs : list A) (body : A → gen B) :
  (∀ x, raised (body x) = None) →
  yields (gen_for xs body) = List.concat (map (λ x, yields (body x)) xs).
Proof.
  intros Hq. induction xs as [|x xs IH]; [done|].
  cbn [gen_for map List.concat]. unfold gen_seq.
  specialize (Hq x). unfold raised in Hq. rewrite Hq.
  unfold yields in *. cbn [fst]. by rewrite IH.
Qed.

Lemma gen_for_ext {A B} (xs : list A) (body1 body2 : A → gen B) :
  (∀ x, body1 x = body2 x) → gen_for xs body1 = gen_for xs body2.
Proof. intros Hb. induction xs as [|x xs IH]; [done|]. cbn. by rewrite Hb, IH. Qed.

(** Without regex, the listing is the entries of the sub-folders followed
    by the entries of the directory. *)
Lemma get_list_literal_yields directory substrings subfolders :
  yields (get_list_of_file_paths_in_dir directory substrings subfolders false)
  = List.concat (map (λ d, yields (own_entries d substrings false))
              (if subfolders then get_list_of_subdir_in_dir directory else []))
    ++ yields (own_entries directory substrings false).
Proof.
  unfold get_list_of_file_paths_in_dir, gen_seq.
  destruct subfolders.
  - pose proof (gen_for_quiet (get_list_of_subdir_in_dir directory)
                  (λ d, own_entries d substrings false)
                  (λ d, own_entries_literal_quiet d substrings)) as Hq.
    unfold raised in Hq. rewrite Hq. unfold yields at 1. cbn [fst].
    f_equal. apply (gen_for_yields_quiet _ (λ d, own_entries d substrings false)).
    intros d. apply own_entries_literal_quiet.
  - done.
Qed.

Lemma elem_of_concat_submseteq {A} (x : list A) (xs : list (list A)) :
  x ∈ xs → x ⊆+ List.concat xs.
Proof.
  intros Hin. apply list_elem_of_split in Hin as (l1 & l2 & ->).
  rewrite concat_app. cbn [List.concat].
  apply submseteq_inserts_l, submseteq_inserts_r. done.
Qed.

Lemma subdirs_walk_member directory (item : walk_item) :
  item ∈ os_walk directory →
  PyStr.contains ".ipynb_checkpoints" (with_trailing_sep item.1.1) = false →
  with_trailing_sep item.1.1 ∈ get_list_of_subdir_in_dir directory.
Proof.
  intros Hin Hck. rewrite get_list_of_subdir_filter, list_elem_of_filter.
  split; [by rewrite Hck|].
  apply list_elem_of_In, in_map_iff. exists item. split; [done|by apply list_elem_of_In].
Qed.

Lemma elem_of_list_concat {A} (x : A) (ls : list (list A)) :
  x ∈ List.concat ls ↔ ∃ l, x ∈ l ∧ l ∈ ls.
Proof.
  rewrite list_elem_of_In, in_concat. split.
  - intros (l & Hl & Hx). exists l. split; by apply list_elem_of_In.
  - intros (l & Hx & Hl). exists l. split; by apply list_elem_of_In.
Qed.
End listing_more.


(** X4.  With [regex=True] and a list of substrings the generator raises
    its [Exception] before yielding anything, for every directory and with or
    without sub-folders. *)
Theorem regex_with_list_raises `{Re} `{Os}
    (directory : string) (substrings : list string) (subfolders : bool) :
  ∃ msg,
    file_ops.get_list_of_file_paths_in_dir directory (file_ops.SubList substrings)
      subfolders true
    = ([], Some (Exception_ msg)).
Proof.
  exists "If you want to match regex, the substrings should be of str type instead of list".
  unfold file_ops.get_list_of_file_paths_in_dir.
  destruct subfolders; [|reflexivity].
  destruct (file_ops.get_list_of_subdir_in_dir directory); reflexivity.
Qed.

(** X5.  With [regex=True] and no pattern none of the branches runs: the
    generator yields nothing and ends normally, whatever the directory
    holds. *)
Theorem regex_without_pattern_yields_nothing `{Re} `{Os}
    (directory : string) (subfolders : bool) :
  file_ops.get_list_of_file_paths_in_dir directory file_ops.SubNone subfolders true
  = ([], None).
Proof.
  unfold file_ops.get_list_of_file_paths_in_dir.
  destruct subfolders; [|reflexivity].
  assert (∀ ds, gen_for ds (λ d, file_ops.own_entries d file_ops.SubNone true)
                = gen_done) as ->; [|reflexivity].
  induction ds as [|d ds IH]; [reflexivity|].
  cbn [gen_for]. rewrite IH. reflexivity.
Qed.

(** X6.  When the walk lists the directory itself and its path names no
    checkpoint folder, a call with [subfolders=True] (without regex) yields
    every entry of the directory at least twice: once in the descent and once
    more afterwards. *)
Theorem subfolders_yield_own_entries_twice `{Re} `{Os}
    (directory : string) (substrings : file_ops.substrings_arg)
    (dirs files : list string) :
  directory ≠ EmptyString →
  (directory, dirs, files) ∈ os_walk directory →
  PyStr.contains ".ipynb_checkpoints" (with_trailing_sep directory) = false →
  let once :=
    yields (file_ops.get_list_of_file_paths_in_dir directory substrings false false) in
  once ++ once
  ⊆+ yields (file_ops.get_list_of_file_paths_in_dir directory substrings true false).
Proof.
  intros Hne Hwalk Hck once. unfold once.
  rewrite !get_list_literal_yields. cbn [map List.concat app].
  apply submseteq_app; [|done].
  assert (file_ops.own_entries directory substrings false
          = file_ops.own_entries (with_trailing_sep directory) substrings false) as ->.
  { unfold file_ops.own_entries. by rewrite join_star_with_trailing_sep. }
  apply elem_of_concat_submseteq.
  apply list_elem_of_In, in_map_iff. exists (with_trailing_sep directory).
  split; [done|]. apply list_elem_of_In.
  apply (subdirs_walk_member directory (directory, dirs, files)); done.
Qed.

Lemma subfolders_yield_own_entries_twice_witness :
  ["data/x.txt"; "data/sub"] ++ ["data/x.txt"; "data/sub"]
  ⊆+ yields (@file_ops.get_list_of_file_paths_in_dir literal_re (tree_fs.os_of samples.disk)
               "data" file_ops.SubNone true false).
Proof.
  apply (@subfolders_yield_own_entries_twice literal_re (tree_fs.os_of samples.disk)
           "data" file_ops.SubNone ["sub"; ".ipynb_checkpoints"] ["x.txt"]).
  - discriminate.
  - apply list_elem_of_In. vm_compute. left. reflexivity.
  - vm_compute. reflexivity.
Defined.

Section filters_more.
Import file_ops.
Context `{Re} `{Os}.

Lemma contains_empty s : PyStr.contains EmptyString s = true.
Proof. destruct s; reflexivity. Qed.

Lemma filter_all {A} (keep : A → bool) (xs : list A) :
  (∀ x, keep x = true) → filter (λ x, keep x) xs = xs.
Proof.
  intros Hk. induction xs as [|x xs IH]; [done|].
  rewrite filter_cons_True by (rewrite Hk; done). by rewrite IH.
Qed.

Lemma own_entries_literal directory substrings :
  own_entries directory substrings false
  = (filter (λ f, accepts substrings f) (glob_glob (os_path.join directory "*")), None).
Proof.
  destruct substrings; cbn [own_entries accepts]; [|done|done].
  by rewrite filter_all.
Qed.

(** The test depends on the substrings through their upper-case forms only. *)
Lemma all_substrings_in_upper f substrings :
  all_substrings_in f substrings
  = forallb (λ u, PyStr.contains u (PyStr.upper f)) (map PyStr.upper substrings).
Proof.
  unfold all_substrings_in. induction substrings as [|s l IH]; [done|].
  cbn [forallb map]. by rewrite IH.
Qed.

(** Two calls without regex whose filters accept the same paths are the same
    generator. *)
Lemma get_list_literal_ext directory s1 s2 subfolders :
  (∀ f, accepts s1 f = accepts s2 f) →
  get_list_of_file_paths_in_dir directory s1 subfolders false
  = get_list_of_file_paths_in_dir directory s2 subfolders false.
Proof.
  intros Hacc.
  assert (∀ d, own_entries d s1 false = own_entries d s2 false) as Hown.
  { intros d. rewrite !own_entries_literal. f_equal.
    apply list_filter_iff. intros f. by rewrite Hacc. }
  unfold get_list_of_file_paths_in_dir. rewrite Hown.
  destruct subfolders; [|done].
  by rewrite (gen_for_ext _ _ (λ d, own_entries d s2 false)).
Qed.

(** Membership in a listing without regex. *)
Lemma get_list_literal_member directory substrings subfolders f :
  f ∈ yields (get_list_of_file_paths_in_dir directory substrings subfolders false) ↔
  (∃ d, d ∈ listed_dirs directory subfolders ∧ f ∈ glob_glob (os_path.join d "*")) ∧
  accepts substrings f = true.
Proof.
  rewrite get_list_literal_yields. unfold listed_dirs.
  rewrite elem_of_app, elem_of_list_concat. split.
  - intros [(ys & Hf & Hys)|Hf].
    + apply list_elem_of_In, in_map_iff in Hys as (d & <- & Hd).
      rewrite own_entries_literal in Hf. cbn [yields fst] in Hf.
      apply list_elem_of_filter in Hf as [Hacc Hf]. apply Is_true_true in Hacc.
      split; [|done]. exists d. split; [|done].
      apply elem_of_app. left. by apply list_elem_of_In.
    + rewrite own_entries_literal in Hf. cbn [yields fst] in Hf.
      apply list_elem_of_filter in Hf as [Hacc Hf]. apply Is_true_true in Hacc.
      split; [|done]. exists directory. split; [|done].
      apply elem_of_app. right. by left.
  - intros ((d & Hd & Hf) & Hacc).
    assert (f ∈ yields (own_entries d substrings false)) as Hown.
    { rewrite own_entries_literal. cbn [yields fst].
      apply list_elem_of_filter. split; [by apply Is_true_true|done]. }
    apply elem_of_app in Hd as [Hd|Hd].
    + left. eexists. split; [exact Hown|].
      apply list_elem_of_In, in_map_iff. exists d. split; [done|by apply list_elem_of_In].
    + apply list_elem_of_singleton in Hd as ->. by right.
Qed.
End filters_more.

(** X7.  An empty string as filter is no filter: [''.split(' ')] is the list
    holding the empty string, which is a substring of every path. *)
Theorem empty_string_filter_is_no_filter `{Re} `{Os}
    (directory : string) (subfolders : bool) :
  file_ops.get_list_of_file_paths_in_dir directory (file_ops.SubStr EmptyString)
    subfolders false
  = file_ops.get_list_of_file_paths_in_dir directory file_ops.SubNone subfolders false.
Proof.
  apply get_list_literal_ext. intros f. cbn. by rewrite contains_empty.
Qed.

(** X8.  The literal filter ignores the case of the substrings: two lists
    with the same upper-case forms select the same paths. *)
Theorem literal_filter_ignores_case `{Re} `{Os}
    (directory : string) (l1 l2 : list string) (subfolders : bool) :
  map PyStr.upper l1 = map PyStr.upper l2 →
  file_ops.get_list_of_file_paths_in_dir directory (file_ops.SubList l1) subfolders false
  = file_ops.get_list_of_file_paths_in_dir directory (file_ops.SubList l2) subfolders false.
Proof.
  intros Hup. apply get_list_literal_ext. intros f. cbn [accepts].
  by rewrite !all_substrings_in_upper, Hup.
Qed.

Lemma literal_filter_ignores_case_witness :
  @file_ops.get_list_of_file_paths_in_dir literal_re (tree_fs.os_of samples.disk)
    "data/sub" (file_ops.SubList [".CSV"]) false false
  = @file_ops.get_list_of_file_paths_in_dir literal_re (tree_fs.os_of samples.disk)
      "data/sub" (file_ops.SubList [".csv"]) false false.
Proof.
  apply (@literal_filter_ignores_case literal_re (tree_fs.os_of samples.disk)
           "data/sub" [".CSV"] [".csv"] false).
  reflexivity.
Defined.

(** X9.  Without regex, a path is yielded exactly when [glob] returns it for
    the directory, or with [subfolders] for one of the listed sub-folders, and
    every substring of the filter occurs in it, compared in upper case: all of
    [l1 ++ l2] is required exactly when all of [l1] and all of [l2] are. *)
Theorem literal_listing_members `{Re} `{Os}
    (directory : string) (l1 l2 : list string) (subfolders : bool) (f : string) :
  (f ∈ yields (file_ops.get_list_of_file_paths_in_dir directory (file_ops.SubList l1)
                 subfolders false) ↔
   (∃ d, d ∈ listed_dirs directory subfolders ∧ f ∈ glob_glob (os_path.join d "*")) ∧
   ∀ s, s ∈ l1 → PyStr.contains (PyStr.upper s) (PyStr.upper f) = true) ∧
  (f ∈ yields (file_ops.get_list_of_file_paths_in_dir directory
                 (file_ops.SubList (l1 ++ l2)) subfolders false) ↔
   f ∈ yields (file_ops.get_list_of_file_paths_in_dir directory (file_ops.SubList l1)
                 subfolders false) ∧
   f ∈ yields (file_ops.get_list_of_file_paths_in_dir directory (file_ops.SubList l2)
                 subfolders false)).
Proof.
  split.
  - rewrite get_list_literal_member. cbn [accepts]. by rewrite all_substrings_in_spec.
  - rewrite !get_list_literal_member. cbn [accepts].
    unfold file_ops.all_substrings_in. rewrite forallb_app, andb_true_iff. tauto.
Qed.

(** ** [file_ops]: names, parents and the local aggregator *)

Section names_more.

Lemma rsplit_sep_app p :
  p = (os_path.rsplit_sep p).1 +:+ (os_path.rsplit_sep p).2.
Proof.
  induction p as [|c p IH]; [done|]. cbn [os_path.rsplit_sep].
  destruct (os_path.rsplit_sep p) as [h t]. cbn [fst snd] in IH.
  destruct (os_path.is_sep c).
  - cbn [fst snd]. change (String c h +:+ t) with (String c (h +:+ t)). by rewrite <- IH.
  - destruct h as [|x h]; cbn [fst snd].
    + cbn in IH. by rewrite IH.
    + change (String c (String x h) +:+ t) with (String c (String x h +:+ t)).
      by rewrite <- IH.
Qed.

Lemma contains_sep_cons c t :
  PyStr.contains "/" (String c t) = (os_path.is_sep c || PyStr.contains "/" t)%bool.
Proof.
  cbn [PyStr.contains]. f_equal.
  unfold PyStr.startswith, os_path.is_sep. cbn [String.prefix].
  destruct (ascii_dec "/" c) as [<-|Hne].
  - by destruct t.
  - symmetry. apply Ascii.eqb_neq. congruence.
Qed.

Lemma basename_no_sep p : PyStr.contains "/" (os_path.basename p) = false.
Proof.
  unfold os_path.basename. induction p as [|c p IH]; [done|].
  cbn [os_path.rsplit_sep]. destruct (os_path.rsplit_sep p) as [h t]. cbn [snd] in IH.
  destruct (os_path.is_sep c) eqn:Hc; [done|].
  destruct h; cbn [snd]; [|done].
  by rewrite contains_sep_cons, Hc, IH.
Qed.

Lemma endswith_refl s : PyStr.endswith s s = true.
Proof. destruct s; cbn [PyStr.endswith]; by rewrite String.eqb_refl. Qed.

Lemma basename_suffix p : PyStr.endswith (os_path.basename p) p = true.
Proof.
  rewrite (rsplit_sep_app p) at 2. apply endswith_app, endswith_refl.
Qed.

Context `{Os} `{Pandas}.

Lemma read_each_run paths : ∀ all_df,
  file_ops.read_each paths all_df
  = rbind (load_paths paths) (λ dfs, Ret (all_df ++ dfs)).
Proof.
  induction paths as [|p paths IH]; intros all_df.
  - cbn. by rewrite app_nil_r.
  - cbn [file_ops.read_each load_paths].
    destruct (codecs_open p) as [f|e]; cbn [rbind]; [|done].
    destruct (pd_read_table f) as [d|e]; cbn [rbind]; [|done].
    rewrite IH. destruct (load_paths paths); cbn [rbind]; [|done].
    by rewrite <- app_assoc.
Qed.
End names_more.

(** X10.  [get_file_names_from_paths] keeps the shape of its argument: one
    name for one path, and for a list one name per path in the same order.
    Each name is the end of its path and holds no separator. *)
Theorem file_names_are_last_components :
  (∀ path, ∃ name,
     file_ops.get_file_names_from_paths (list_ops.OnePath path) = file_ops.OneName name ∧
     PyStr.endswith name path = true ∧ PyStr.contains "/" name = false) ∧
  (∀ paths, ∃ names,
     file_ops.get_file_names_from_paths (list_ops.ManyPaths paths)
     = file_ops.ManyNames names ∧
     List.length names = List.length paths ∧
     ∀ (i : nat) path, paths !! i = Some path →
       ∃ name, names !! i = Some name ∧
               PyStr.endswith name path = true ∧ PyStr.contains "/" name = false).
Proof.
  split.
  - intros path. eexists. split; [reflexivity|].
    split; [apply basename_suffix|apply basename_no_sep].
  - intros paths. eexists. split; [reflexivity|]. split; [apply length_map|].
    intros i path Hi. exists (os_path.basename path).
    split; [|split; [apply basename_suffix|apply basename_no_sep]].
    change (map os_path.basename paths) with (os_path.basename <$> paths).
    by rewrite list_lookup_fmap, Hi.
Qed.

(** X11.  The local aggregator opens and parses the yielded paths in order,
    stops with the error of the first path that cannot be opened or parsed,
    and otherwise returns the concatenation of the frames in that order. *)
Theorem local_aggregator_loads_in_order `{Re} `{Os} `{Pandas}
    (folder_path : string) (substrings : file_ops.substrings_arg) (subfolders : bool) :
  file_ops.read_all_csv_files_in_directory_as_one_df folder_path substrings subfolders
  = rbind (load_paths
             (yields (file_ops.get_list_of_file_paths_in_dir folder_path substrings
                        subfolders false)))
          pd_concat.
Proof.
  unfold file_ops.read_all_csv_files_in_directory_as_one_df.
  rewrite read_each_run, get_list_literal_quiet.
  destruct (load_paths _); reflexivity.
Qed.

(** X12.  For a list of paths [get_dir_names_from_paths] returns each parent
    directory, written with its separator, exactly once. *)
Theorem dir_names_are_the_distinct_parents (paths : list string) :
  ∃ dirs,
    file_ops.get_dir_names_from_paths (list_ops.ManyPaths paths)
    = Ret (file_ops.ManyNames dirs) ∧
    NoDup dirs ∧
    ∀ d, d ∈ dirs ↔ ∃ p, p ∈ paths ∧ d = os_path.dirname p +:+ os_path.sep.
Proof. apply get_dir_names_unique. Qed.

(** ** [S3os]: listing, copying and removing *)

Section bucket_more.
Import s3_file_ops.

Lemma sorted_keys_member w k : k ∈ sorted_keys w ↔ is_Some (objects w !! k).
Proof.
  unfold sorted_keys. rewrite merge_sort_Permutation, elem_of_elements.
  apply elem_of_dom.
Qed.

Lemma sorted_keys_NoDup w : NoDup (sorted_keys w).
Proof. unfold sorted_keys. rewrite merge_sort_Permutation. apply NoDup_elements. Qed.

Lemma keys_under_member w Prefix k :
  k ∈ keys_under w Prefix ↔
  is_Some (objects w !! k) ∧ PyStr.startswith Prefix k = true.
Proof.
  unfold keys_under. rewrite list_elem_of_filter, sorted_keys_member, Is_true_true. tauto.
Qed.

Lemma keys_under_NoDup w Prefix : NoDup (keys_under w Prefix).
Proof. apply NoDup_filter, sorted_keys_NoDup. Qed.

Lemma keys_under_same_objects w1 w2 Prefix :
  objects w1 = objects w2 → keys_under w1 Prefix = keys_under w2 Prefix.
Proof. intros Ho. unfold keys_under, sorted_keys. by rewrite Ho. Qed.
End bucket_more.

(** X13.  [listdir] leaves the bucket as it is and returns, each once, the
    keys of the bucket that start with [dir_path] and, when a substring is
    given, contain it. *)
Theorem listdir_lists_keys_under_prefix
    (self : s3_file_ops.S3os) (dir_path : string) (substring : option string)
    (w : s3_file_ops.world) :
  ∃ keys,
    s3_file_ops.listdir self dir_path substring w = (Ret keys, w) ∧
    NoDup keys ∧
    ∀ k, k ∈ keys ↔
         is_Some (s3_file_ops.objects w !! k) ∧
         PyStr.startswith dir_path k = true ∧
         match substring with
         | Some s => PyStr.contains s k = true
         | None => True
         end.
Proof.
  unfold s3_file_ops.listdir, s3_file_ops.bind, s3_file_ops.bucket_objects_filter.
  destruct substring as [s|]; eexists; (split; [reflexivity|]).
  - split; [apply NoDup_filter, keys_under_NoDup|].
    intros k. rewrite list_elem_of_filter, keys_under_member, Is_true_true. tauto.
  - split; [apply keys_under_NoDup|].
    intros k. rewrite keys_under_member. tauto.
Qed.





(** X17.  [rename] of a key that is not in the bucket raises the service's
    error from the copy and changes nothing. *)
Theorem rename_missing_key_fails
    (self : s3_file_ops.S3os) (old_key new_key : string) (w : s3_file_ops.world) :
  s3_file_ops.objects w !! old_key = None →
  ∃ msg, s3_file_ops.rename self old_key new_key w = (Raise (ClientError msg), w).
Proof. intros Hnone. rewrite rename_run, Hnone. eexists. reflexivity. Qed.

Lemma rename_missing_key_fails_witness :
  ∃ msg, s3_file_ops.rename samples.adapter "absent" "k2" samples.one_object
         = (Raise (ClientError msg), samples.one_object).
Proof.
  apply (rename_missing_key_fails samples.adapter "absent" "k2" samples.one_object).
  vm_compute. reflexivity.
Defined.

(** ** [S3os.exists] and [S3os.create_if_not_exists] on a bucket *)

Section exists_on_bucket.
Import s3_file_ops.
Context `{Re}.

(** The page that [exists] works on. *)
Lemma list_objects_v2_page Prefix w :
  ∃ response,
    list_objects_v2 Prefix w = (Ret response, w) ∧
    default [] (Contents response)
    = map (λ k, Summary k (size_of w k)) (take page_cap (keys_under w Prefix)) ∧
    KeyCount response
    = Some (Z.of_nat (List.length (take page_cap (keys_under w Prefix)))).
Proof.
  unfold list_objects_v2. eexists. split; [reflexivity|]. cbn [Contents KeyCount].
  split; [|done]. by destruct (take page_cap (keys_under w Prefix)).
Qed.

Lemma exists_leaves_world self key_prefix format_size w :
  snd (exists_ self key_prefix format_size w) = w.
Proof. reflexivity. Qed.

Lemma exists_same_objects self key_prefix format_size w1 w2 :
  objects w1 = objects w2 →
  fst (exists_ self key_prefix format_size w1) = fst (exists_ self key_prefix format_size w2).
Proof. destruct w1, w2. cbn [objects]. intros ->. reflexivity. Qed.


Lemma sum_of_sizes (keys : list string) (size : string → Z) :
  sum_of (Size <$> map (λ k, Summary k (size k)) keys) = sum_of (map size keys).
Proof.
  induction keys as [|k keys IH]; [done|].
  cbn [map]. rewrite fmap_cons. unfold sum_of in *. cbn [foldr Size]. by rewrite IH.
Qed.

Lemma filter_all_keys (keep : object_summary → bool) (keys : list string)
    (size : string → Z) :
  Forall (λ k, ∀ z, keep (Summary k z) = true) keys →
  filter (λ o, keep o) (map (λ k, Summary k (size k)) keys)
  = map (λ k, Summary k (size k)) keys.
Proof.
  induction 1 as [|k keys Hk _ IH]; [done|].
  cbn [map]. rewrite filter_cons_True by (rewrite Hk; done). by rewrite IH.
Qed.

(** [create_if_not_exists] by the answer of its call of [exists]. *)
Lemma create_if_not_exists_run self key w :
  create_if_not_exists self key w =
    match fst (exists_ self (bucket_name self) (truthy key) w) with
    | Raise e => (Raise e, w)
    | Ret PyNone =>
        if String.eqb key EmptyString
        then (Raise (ClientError "Invalid length for parameter Key"), w)
        else (Ret tt,
              World (<[key := EmptyString]> (objects w))
                (log w ++ ["Following folder/file created: " +:+ key]))
    | Ret _ =>
        (Ret tt, World (objects w) (log w ++ ["Follwoing folder/file already exists: " +:+ key]))
    end.
Proof.
  unfold create_if_not_exists. unfold bind at 1.
  change (exists_ self (bucket_name self) (truthy key) w)
    with (fst (exists_ self (bucket_name self) (truthy key) w), w).
  destruct (fst (exists_ self (bucket_name self) (truthy key) w)) as [[| |]|e];
    try reflexivity.
  unfold bind, put_object. by destruct (String.eqb key EmptyString).
Qed.

(** What [create_if_not_exists] can do to the stored objects. *)
Lemma create_if_not_exists_objects self key w :
  objects (snd (create_if_not_exists self key w)) = objects w ∨
  objects (snd (create_if_not_exists self key w)) = <[key := EmptyString]> (objects w).
Proof.
  rewrite create_if_not_exists_run.
  destruct (fst (exists_ self (bucket_name self) (truthy key) w)) as [[| |]|e];
    try (by left).
  destruct (String.eqb key EmptyString); [by left|by right].
Qed.
End exists_on_bucket.



(** X19.  When fewer than 1000 keys lie under the prefix, the pattern made
    of the prefix matches each of them and their sizes do not add up to zero,
    [exists] without [format_size] returns exactly the sum of their sizes. *)
Theorem exists_returns_total_size `{Re}
    (self : s3_file_ops.S3os) (key_prefix : string)
    (w : s3_file_ops.world) (re_prefix : pattern) :
  re_compile key_prefix = Ret re_prefix →
  Forall (λ k, re_match re_prefix k = true) (s3_file_ops.keys_under w key_prefix) →
  (List.length (s3_file_ops.keys_under w key_prefix) < 1000)%nat →
  first_page_total w key_prefix ≠ 0 →
  s3_file_ops.exists_ self key_prefix false w
  = (Ret (PyInt (first_page_total w key_prefix)), w).
Proof.
  intros Hc Hall Hlen Hnz. unfold s3_file_ops.exists_, s3_file_ops.bind.
  destruct (list_objects_v2_page key_prefix w) as (response & -> & Hcont & Hcount).
  unfold s3_file_ops.lift. f_equal.
  rewrite (exists_on_compiled _ _ _ _ Hc). cbn zeta.
  assert (sum_of (s3_file_ops.Size <$> matched_objects re_prefix response)
          = first_page_total w key_prefix) as ->.
  { unfold matched_objects, first_page_total. rewrite Hcont.
    rewrite (filter_all_keys (λ o, re_match re_prefix (s3_file_ops.Key o))).
    - apply sum_of_sizes.
    - apply Forall_take. eapply Forall_impl; [exact Hall|]. cbn. done. }
  destruct (Z.eqb_spec (first_page_total w key_prefix) 0) as [|_]; [done|].
  cbn [rbind]. rewrite bool_decide_eq_false_2; [done|].
  rewrite Hcount. unfold s3_file_ops.page_cap. rewrite length_take. intros Heq.
  assert (Z.of_nat (1000 `min` List.length (s3_file_ops.keys_under w key_prefix)) = 1000)
    as Hmin by congruence.
  lia.
Qed.

Lemma exists_returns_total_size_witness :
  @s3_file_ops.exists_ literal_re samples.adapter "logs/" false samples.two_objects
  = (Ret (PyInt 2024), samples.two_objects).
Proof.
  apply (@exists_returns_total_size literal_re samples.adapter "logs/" samples.two_objects
           "logs/" eq_refl).
  - vm_compute. repeat constructor.
  - vm_compute. lia.
  - vm_compute. discriminate.
Defined.

(** X20.  [create_if_not_exists] never removes or alters any key other than
    [key], and [key] itself either stays as it was or becomes an empty
    object. *)
Theorem create_if_not_exists_touches_only_key `{Re}
    (self : s3_file_ops.S3os) (key : string) (w : s3_file_ops.world) :
  let w' := snd (s3_file_ops.create_if_not_exists self key w) in
  (∀ k, k ≠ key → s3_file_ops.objects w' !! k = s3_file_ops.objects w !! k) ∧
  (s3_file_ops.objects w' !! key = s3_file_ops.objects w !! key ∨
   s3_file_ops.objects w' !! key = Some EmptyString).
Proof.
  cbn zeta. destruct (create_if_not_exists_objects self key w) as [-> | ->].
  - split; [done|by left].
  - split; [|right; apply lookup_insert_eq].
    intros k Hk. by rewrite lookup_insert_ne.
Qed.

(** X21.  [create_if_not_exists] is idempotent on the stored objects: a
    second call with the same key leaves them as the first call left them,
    whether the calls created the object, found one, or raised. *)
Theorem create_if_not_exists_idempotent `{Re}
    (self : s3_file_ops.S3os) (key : string) (w : s3_file_ops.world) :
  s3_file_ops.objects
    (snd (s3_file_ops.create_if_not_exists self key
            (snd (s3_file_ops.create_if_not_exists self key w))))
  = s3_file_ops.objects (snd (s3_file_ops.create_if_not_exists self key w)).
Proof.
  rewrite (create_if_not_exists_run self key w).
  destruct (fst (s3_file_ops.exists_ self (s3_file_ops.bucket_name self)
                   (s3_file_ops.truthy key) w)) as [v|e] eqn:Hfound;
    [|cbn [snd]; by rewrite create_if_not_exists_run, Hfound].
  assert (∀ lg, fst (s3_file_ops.exists_ self (s3_file_ops.bucket_name self)
                       (s3_file_ops.truthy key)
                       (s3_file_ops.World (s3_file_ops.objects w) lg)) = Ret v) as Hagain.
  { intros lg. rewrite <- Hfound. by apply exists_same_objects. }
  destruct v as [|z|s].
  - destruct (String.eqb key EmptyString) eqn:Hkey.
    { cbn [snd]. by rewrite create_if_not_exists_run, Hfound, Hkey. }
    cbn [snd].
    destruct (create_if_not_exists_objects self key
                (s3_file_ops.World (<[key := EmptyString]> (s3_file_ops.objects w))
                   (s3_file_ops.log w ++ ["Following folder/file created: " +:+ key])))
      as [-> | ->]; cbn [s3_file_ops.objects]; [done|apply insert_insert_eq].
  - cbn [snd]. rewrite create_if_not_exists_run, Hagain. done.
  - cbn [snd]. rewrite create_if_not_exists_run, Hagain. done.
Qed.

(** ** [S3os.save_dataframe], [download_dir] and [upload_dir] *)

(** X22.  [save_dataframe] with a non-empty path stores the CSV text of the
    table under that path, replacing what was there and touching no other
    key; reading the key back through [pd.read_csv] parses that same text. *)
Theorem save_dataframe_stores_csv_text `{s3_file_ops.CsvWriter}
    (self : s3_file_ops.S3os) (df_to_save : DataFrame) (file_path : string)
    (w : s3_file_ops.world) :
  file_path ≠ EmptyString →
  ∃ w',
    s3_file_ops.save_dataframe self df_to_save file_path w = (Ret tt, w') ∧
    s3_file_ops.objects w' !! file_path = Some (s3_file_ops.to_csv df_to_save) ∧
    (∀ k, k ≠ file_path → s3_file_ops.objects w' !! k = s3_file_ops.objects w !! k) ∧
    fst (s3_file_ops.pd_read_csv_s3 (s3_file_ops.bucket_name self) file_path w')
    = pd_read_table (s3_file_ops.to_csv df_to_save).
Proof.
  intros Hne. unfold s3_file_ops.save_dataframe, s3_file_ops.object_put.
  destruct (String.eqb_spec file_path EmptyString) as [|_]; [done|].
  eexists. split; [reflexivity|]. cbn [s3_file_ops.objects].
  split; [apply lookup_insert_eq|]. split.
  - intros k Hk. by rewrite lookup_insert_ne.
  - unfold s3_file_ops.pd_read_csv_s3. cbn [s3_file_ops.objects].
    by rewrite lookup_insert_eq.
Qed.

Lemma save_dataframe_stores_csv_text_witness :
  ∃ w',
    @s3_file_ops.save_dataframe line_frames samples.line_writer samples.adapter
      ["a,b"; "1,2"] "out/t_1.csv" samples.one_object = (Ret tt, w') ∧
    s3_file_ops.objects w' !! "out/t_1.csv"
    = Some (@s3_file_ops.to_csv line_frames samples.line_writer ["a,b"; "1,2"]) ∧
    s3_file_ops.objects w' !! "k" = Some "12345".
Proof.
  destruct (@save_dataframe_stores_csv_text line_frames samples.line_writer samples.adapter
              ["a,b"; "1,2"] "out/t_1.csv" samples.one_object)
    as (w' & Hrun & Hput & Hrest & _); [discriminate|].
  exists w'. split; [exact Hrun|]. split; [exact Hput|].
  rewrite Hrest by discriminate. vm_compute. reflexivity.
Defined.

Section transfers.
Import s3_file_ops.

Lemma full_file_path_rooted save_to_this_dir this_file_path :
  full_file_path save_to_this_dir this_file_path
  = if PyStr.startswith "/" this_file_path then this_file_path
    else "/" +:+ this_file_path.
Proof.
  unfold full_file_path, os_path.join at 2.
  change (PyStr.startswith os_path.sep os_path.sep) with true. cbn iota.
  unfold os_path.join, os_path.sep.
  destruct (PyStr.startswith "/" this_file_path); reflexivity.
Qed.

Lemma prefix_app old rest : PyStr.startswith old (old +:+ rest) = true.
Proof.
  unfold PyStr.startswith. induction old as [|c old IH].
  - by destruct rest.
  - change (String c old +:+ rest) with (String c (old +:+ rest)).
    cbn [String.prefix]. by destruct (ascii_dec c c).
Qed.

Lemma replace_from_skip old new passed rest :
  PyStr.replace_from old new (String.length passed) (passed +:+ rest)
  = PyStr.replace_from old new O rest.
Proof.
  induction passed as [|c passed IH]; [done|].
  change (String c passed +:+ rest) with (String c (passed +:+ rest)).
  cbn [String.length PyStr.replace_from]. exact IH.
Qed.

Lemma replace_from_absent old new s :
  PyStr.contains old s = false → PyStr.replace_from old new O s = s.
Proof.
  induction s as [|c s IH]; [done|]. cbn [PyStr.contains PyStr.replace_from].
  intros Hc. apply orb_false_iff in Hc as [-> Hs]. by rewrite IH.
Qed.

(** A path that starts with the local directory, and holds its text nowhere
    else, has that start exchanged for the remote one. *)
Lemma replace_leading old new rest :
  old ≠ EmptyString → PyStr.contains old rest = false →
  PyStr.replace old new (old +:+ rest) = new +:+ rest.
Proof.
  intros Hne Hrest. unfold PyStr.replace.
  destruct (String.eqb_spec old EmptyString) as [|_]; [done|].
  destruct old as [|c old]; [done|].
  change (String c old +:+ rest) with (String c (old +:+ rest)).
  cbn [PyStr.replace_from].
  change (String c (old +:+ rest)) with (String c old +:+ rest).
  rewrite prefix_app. cbn [String.length Nat.pred].
  by rewrite replace_from_skip, replace_from_absent.
Qed.

Context `{Re} `{Os} `{LocalFiles}.

Lemma upload_lists_from local_dir_path s3_dir_path paths : ∀ ps ks,
  foldl (λ '(list_of_file_paths, list_of_file_save_path) this_path,
           let this_basename := os_path.basename this_path in
           if PyStr.contains "." this_basename then
             let this_s3_path := PyStr.replace local_dir_path s3_dir_path this_path in
             (list_of_file_paths ++ [this_path], list_of_file_save_path ++ [this_s3_path])
           else (list_of_file_paths, list_of_file_save_path))
        (ps, ks) paths
  = (ps ++ filter (λ p, PyStr.contains "." (os_path.basename p)) paths,
     ks ++ map (PyStr.replace local_dir_path s3_dir_path)
             (filter (λ p, PyStr.contains "." (os_path.basename p)) paths)).
Proof.
  induction paths as [|p paths IH]; intros ps ks.
  - cbn. by rewrite !app_nil_r.
  - cbn [foldl]. destruct (PyStr.contains "." (os_path.basename p)) eqn:Hdot.
    + rewrite IH, filter_cons_True by (rewrite Hdot; done).
      cbn [map]. by rewrite <- !app_assoc.
    + rewrite IH, filter_cons_False by (rewrite Hdot; exact id). done.
Qed.

Lemma zip_with_images {A B} (g : A → B) (xs : list A) :
  zip xs (map g xs) = map (λ x, (x, g x)) xs.
Proof. induction xs as [|x xs IH]; [done|]. cbn. by rewrite IH. Qed.

(** The pairs that [upload_dir] uploads. *)
Lemma upload_lists_pairs local_dir_path s3_dir_path paths :
  zip (upload_lists local_dir_path s3_dir_path paths).1
      (upload_lists local_dir_path s3_dir_path paths).2
  = map (λ p, (p, PyStr.replace local_dir_path s3_dir_path p))
        (filter (λ p, PyStr.contains "." (os_path.basename p)) paths).
Proof.
  unfold upload_lists. rewrite upload_lists_from. cbn [app fst snd]. apply zip_with_images.
Qed.

(** A key that the upload loop changed was written from one of its pairs. *)
Lemma upload_each_writes pairs : ∀ w k,
  objects (snd (upload_each pairs w)) !! k ≠ objects w !! k →
  ∃ p body, (p, k) ∈ pairs ∧ read_file p = Ret body ∧
            objects (snd (upload_each pairs w)) !! k = Some body.
Proof.
  induction pairs as [|[p0 k0] pairs IH]; intros w k Hk; [done|].
  revert Hk. cbn [upload_each]. unfold bind, client_upload_file, object_put.
  destruct (read_file p0) as [body|e] eqn:Hread; [|done].
  destruct (String.eqb k0 EmptyString); [done|].
  set (w1 := {| objects := <[k0 := body]> (objects w); log := log w |}).
  intros Hk.
  destruct (decide (objects (snd (upload_each pairs w1)) !! k = objects w1 !! k))
    as [Heq|Hne].
  - rewrite Heq in *. unfold w1 in *. cbn [objects] in *.
    destruct (decide (k0 = k)) as [->|Hkk].
    + exists p0, body. split; [left|]. split; [done|]. apply lookup_insert_eq.
    + rewrite lookup_insert_ne in Hk by done. done.
  - destruct (IH w1 k Hne) as (p & b & Hin & Hr & Hv).
    exists p, b. split; [by right|done].
Qed.
End transfers.

(** X23.  [download_dir] never uses [save_to_this_dir]: the path built at
    line 114 puts [os.sep] between the folder and the key, which makes
    [os.path.join] start again from the root, so a key is written at [/]
    followed by the key (or at the key itself when it starts with [/]), and
    two calls that differ only in the local folder do the same to the disk. *)
Theorem download_dir_ignores_local_folder `{s3_file_ops.Paginator} `{s3_file_ops.LocalDisk} :
  (∀ save_to_this_dir this_file_path,
     s3_file_ops.full_file_path save_to_this_dir this_file_path
     = if PyStr.startswith "/" this_file_path then this_file_path
       else "/" +:+ this_file_path) ∧
  (∀ fuel self download_this_s3_dir save1 save2 d,
     s3_file_ops.download_dir fuel self download_this_s3_dir save1 d
     = s3_file_ops.download_dir fuel self download_this_s3_dir save2 d).
Proof.
  split; [exact full_file_path_rooted|].
  assert (∀ save1 save2 file d,
            s3_file_ops.download_one save1 file d = s3_file_ops.download_one save2 file d)
    as Hone.
  { intros. unfold s3_file_ops.download_one. by rewrite !full_file_path_rooted. }
  assert (∀ A (xs : list A) (b1 b2 : A → s3_file_ops.disk → option (result s3_file_ops.disk)),
            (∀ x d, b1 x d = b2 x d) →
            ∀ d, s3_file_ops.for_each xs b1 d = s3_file_ops.for_each xs b2 d) as Hext.
  { intros A xs b1 b2 Hb. induction xs as [|x xs IH]; intros d; [done|].
    cbn [s3_file_ops.for_each]. rewrite Hb. destruct (b2 x d) as [[d'|e]|]; [apply IH|done|done]. }
  induction fuel as [|fuel IH]; intros self prefix save1 save2 d; [done|].
  cbn [s3_file_ops.download_dir]. apply Hext. intros result d0.
  assert (∀ d1, match s3_file_ops.CommonPrefixes result with
                | Some subdirs =>
                    s3_file_ops.for_each subdirs
                      (λ subdir, s3_file_ops.download_dir fuel self subdir save1) d1
                | None => Some (Ret d1)
                end
                = match s3_file_ops.CommonPrefixes result with
                  | Some subdirs =>
                      s3_file_ops.for_each subdirs
                        (λ subdir, s3_file_ops.download_dir fuel self subdir save2) d1
                  | None => Some (Ret d1)
                  end) as ->.
  { intros d1. destruct (s3_file_ops.CommonPrefixes result); [|done].
    apply Hext. intros subdir d2. apply IH. }
  destruct (match s3_file_ops.CommonPrefixes result with Some _ => _ | None => _ end)
    as [[d'|e]|]; [|done|done].
  destruct (s3_file_ops.PageContents result); [|done].
  apply Hext. intros file d2. by rewrite (Hone save1 save2).
Qed.

(** On the sample bucket the two objects under [logs/] land in [/logs],
    not in the folder asked for. *)
Example download_dir_sample :
  @s3_file_ops.download_dir samples.logs_pages (samples.flat_disk_ops samples.two_objects)
    1 samples.adapter "logs/" "/home/me/out" (samples.FlatDisk ∅ ∅)
  = Some (Ret (samples.FlatDisk {["/logs"]}
                 (<["/logs/b.bin" := samples.body_of_size 1924]>
                    (<["/logs/a.bin" := samples.body_of_size 100]> ∅)))).
Proof. vm_compute. reflexivity. Qed.

(** X24.  Whatever [upload_dir] changes in the bucket, it wrote: a key whose
    content differs afterwards is [p.replace(local_dir_path, s3_dir_path)] for
    a listed path [p] whose base name holds a dot, and it holds the content
    read from such a path.  Entries without a dot are never uploaded. *)
Theorem upload_dir_writes_only_mapped_paths
    `{Re} `{Os} `{s3_file_ops.LocalFiles}
    (self : s3_file_ops.S3os) (local_dir_path s3_dir_path : string)
    (w : s3_file_ops.world) (k : string) :
  s3_file_ops.objects (snd (s3_file_ops.upload_dir self local_dir_path s3_dir_path w)) !! k
  ≠ s3_file_ops.objects w !! k →
  ∃ p body,
    p ∈ yields (file_ops.get_list_of_file_paths_in_dir local_dir_path file_ops.SubNone
                  true false) ∧
    PyStr.contains "." (os_path.basename p) = true ∧
    k = PyStr.replace local_dir_path s3_dir_path p ∧
    s3_file_ops.read_file p = Ret body ∧
    s3_file_ops.objects (snd (s3_file_ops.upload_dir self local_dir_path s3_dir_path w)) !! k
    = Some body.
Proof.
  unfold s3_file_ops.upload_dir. rewrite get_list_literal_quiet.
  set (paths := yields _).
  pose proof (upload_lists_pairs local_dir_path s3_dir_path paths) as Hpairs.
  destruct (s3_file_ops.upload_lists local_dir_path s3_dir_path paths) as [ps ks].
  cbn [fst snd] in Hpairs. rewrite Hpairs. intros Hk.
  destruct (upload_each_writes _ w k Hk) as (p & body & Hin & Hread & Hv).
  exists p, body.
  apply list_elem_of_In, in_map_iff in Hin as (p' & [= <- <-] & Hin).
  apply list_elem_of_In, list_elem_of_filter in Hin as [Hdot Hin].
  apply Is_true_true in Hdot. done.
Qed.

Lemma upload_dir_writes_only_mapped_paths_witness :
  ∃ p body,
    p ∈ yields (@file_ops.get_list_of_file_paths_in_dir literal_re
                  (tree_fs.os_of samples.disk) "data" file_ops.SubNone true false) ∧
    PyStr.contains "." (os_path.basename p) = true ∧
    "raw/x.txt" = PyStr.replace "data" "raw" p ∧
    @s3_file_ops.read_file (tree_fs.files_of samples.disk) p = Ret body ∧
    s3_file_ops.objects
      (snd (@s3_file_ops.upload_dir literal_re (tree_fs.os_of samples.disk)
              (tree_fs.files_of samples.disk) samples.adapter "data" "raw"
              samples.one_object)) !! "raw/x.txt"
    = Some body.
Proof.
  apply (@upload_dir_writes_only_mapped_paths literal_re (tree_fs.os_of samples.disk)
           (tree_fs.files_of samples.disk) samples.adapter "data" "raw"
           samples.one_object "raw/x.txt").
  vm_compute. discriminate.
Defined.

(** X25.  A listed path that starts with [local_dir_path], holds that text
    nowhere else and has a dot in its base name is uploaded under
    [s3_dir_path] followed by the rest of the path. *)
Theorem upload_dir_key_under_remote_prefix
    (local_dir_path s3_dir_path rest : string) (paths : list string) :
  local_dir_path ≠ EmptyString →
  PyStr.contains local_dir_path rest = false →
  local_dir_path +:+ rest ∈ paths →
  PyStr.contains "." (os_path.basename (local_dir_path +:+ rest)) = true →
  (local_dir_path +:+ rest, s3_dir_path +:+ rest)
  ∈ zip (s3_file_ops.upload_lists local_dir_path s3_dir_path paths).1
        (s3_file_ops.upload_lists local_dir_path s3_dir_path paths).2.
Proof.
  intros Hne Hrest Hin Hdot. rewrite upload_lists_pairs.
  apply list_elem_of_In, in_map_iff. exists (local_dir_path +:+ rest).
  split; [by rewrite replace_leading|].
  apply list_elem_of_In, list_elem_of_filter. split; [by apply Is_true_true|done].
Qed.

Lemma upload_dir_key_under_remote_prefix_witness :
  ("data/sub/y.csv", "raw/sub/y.csv")
  ∈ zip (s3_file_ops.upload_lists "data/" "raw/" ["data/x"; "data/sub/y.csv"]).1
        (s3_file_ops.upload_lists "data/" "raw/" ["data/x"; "data/sub/y.csv"]).2.
Proof.
  apply (upload_dir_key_under_remote_prefix "data/" "raw/" "sub/y.csv"
           ["data/x"; "data/sub/y.csv"]).
  - discriminate.
  - vm_compute. reflexivity.
  - right. left.
  - vm_compute. reflexivity.
Defined.

(** ** The size formatter: range of the number shown *)

Section shown_number.
Import s3_file_ops.

Lemma round_half_even_bounds num den lo hi :
  0 < den → lo * den ≤ num ≤ hi * den →
  lo ≤ round_half_even num den ≤ hi.
Proof.
  intros Hden [Hlo Hhi]. unfold round_half_even.
  pose proof (Z.div_mod num den ltac:(lia)) as Hdm.
  pose proof (Z.mod_pos_bound num den Hden) as Hr.
  assert (lo ≤ num / den) as Hq1 by (apply Z.div_le_lower_bound; lia).
  assert (num / den ≤ hi) as Hq2.
  { apply Z.div_le_upper_bound; lia. }
  destruct ((den <? 2 * (num mod den)) || ((2 * (num mod den) =? den) && Z.odd (num / den)))%bool
    eqn:Hup; [|lia].
  split; [lia|].
  assert (0 < num mod den) as Hpos.
  { apply orb_true_iff in Hup as [Hup|Hup].
    - apply Z.ltb_lt in Hup. lia.
    - apply andb_true_iff in Hup as [Hup _]. apply Z.eqb_eq in Hup. lia. }
  destruct (Z_lt_le_dec (num / den) hi) as [|Hge]; [lia|].
  assert (num / den = hi) as Hq by lia. rewrite Hq in Hdm. lia.
Qed.

Lemma format_unit_range size n label :
  1 ≤ n → 2 ^ (10 * n) < size ≤ 2 ^ (10 * n + 10) → size < 2 ^ 53 →
  power_labels !! n = Some label →
  ∃ h, _format_file_size size = Ret (repr_hundredths h +:+ " " +:+ label +:+ "B") ∧
       100 ≤ h ≤ 102400.
Proof.
  intros Hn [Hlo Hhi] H53 Hlabel.
  rewrite (format_unit size n) by done. rewrite Hlabel.
  eexists. split; [reflexivity|].
  assert (0 < 2 ^ (10 * n)) as Hden by (apply Z.pow_pos_nonneg; lia).
  apply round_half_even_bounds; [done|].
  rewrite Z.pow_add_r in Hhi by lia. change (2 ^ 10) with 1024 in Hhi.
  clear H53 Hlabel. set (den := 2 ^ (10 * n)) in *. clearbody den. lia.
Qed.
End shown_number.

(** X26.  For a size above 1024 bytes and up to 1024^4 the formatter
    returns a number between 1.0 and 1024.0, given in hundredths here, with
    the unit kB, MB or GB. *)
Theorem formatted_number_between_1_and_1024 (size : Z) :
  1024 < size ≤ 1024 ^ 4 →
  ∃ h label,
    s3_file_ops._format_file_size size
    = Ret (s3_file_ops.repr_hundredths h +:+ " " +:+ label +:+ "B") ∧
    100 ≤ h ≤ 102400 ∧ label ∈ ["k"; "M"; "G"].
Proof.
  intros [Hlo Hhi].
  assert (size < 2 ^ 53) as H53.
  { change (1024 ^ 4) with 1099511627776 in Hhi.
    change (2 ^ 53) with 9007199254740992. lia. }
  change (1024 ^ 4) with 1099511627776 in Hhi.
  destruct (Z_le_gt_dec size 1048576) as [H1|H1];
    [|destruct (Z_le_gt_dec size 1073741824) as [H2|H2]].
  - assert (2 ^ (10 * 1) < size ≤ 2 ^ (10 * 1 + 10)) as Hrange.
    { change (2 ^ (10 * 1)) with 1024. change (2 ^ (10 * 1 + 10)) with 1048576. lia. }
    destruct (format_unit_range size 1 "k" ltac:(done) Hrange H53 eq_refl) as (h & Hf & Hh).
    exists h, "k". split; [done|]. split; [done|]. left.
  - assert (2 ^ (10 * 2) < size ≤ 2 ^ (10 * 2 + 10)) as Hrange.
    { change (2 ^ (10 * 2)) with 1048576. change (2 ^ (10 * 2 + 10)) with 1073741824. lia. }
    destruct (format_unit_range size 2 "M" ltac:(done) Hrange H53 eq_refl) as (h & Hf & Hh).
    exists h, "M". split; [done|]. split; [done|]. right. left.
  - assert (2 ^ (10 * 3) < size ≤ 2 ^ (10 * 3 + 10)) as Hrange.
    { change (2 ^ (10 * 3)) with 1073741824.
      change (2 ^ (10 * 3 + 10)) with 1099511627776. lia. }
    destruct (format_unit_range size 3 "G" ltac:(done) Hrange H53 eq_refl) as (h & Hf & Hh).
    exists h, "G". split; [done|]. split; [done|]. right. right. left.
Qed.

Lemma formatted_number_between_1_and_1024_witness :
  ∃ h label,
    s3_file_ops._format_file_size 123456789
    = Ret (s3_file_ops.repr_hundredths h +:+ " " +:+ label +:+ "B") ∧
    100 ≤ h ≤ 102400 ∧ label ∈ ["k"; "M"; "G"].
Proof.
  apply (formatted_number_between_1_and_1024 123456789).
  split; [reflexivity|]. vm_compute. discriminate.
Defined.

(** ** Diagnostics of [create_if_not_exists] and the regex branch *)

(** X27.  [create_if_not_exists] emits exactly one diagnostic when it
    returns, saying that the key was created or that it already exists, and
    changes nothing at all, log included, when it raises. *)
Theorem create_if_not_exists_logs_once `{Re}
    (self : s3_file_ops.S3os) (key : string) (w : s3_file_ops.world) :
  match s3_file_ops.create_if_not_exists self key w with
  | (Ret _, w') =>
      s3_file_ops.log w'
      = s3_file_ops.log w ++ ["Following folder/file created: " +:+ key] ∨
      (s3_file_ops.log w'
       = s3_file_ops.log w ++ ["Follwoing folder/file already exists: " +:+ key] ∧
       s3_file_ops.objects w' = s3_file_ops.objects w)
  | (Raise _, w') => w' = w
  end.
Proof.
  rewrite create_if_not_exists_run.
  destruct (fst (s3_file_ops.exists_ self (s3_file_ops.bucket_name self)
                   (s3_file_ops.truthy key) w)) as [[| |]|e]; cbn; auto.
  destruct (String.eqb key EmptyString); cbn; auto.
Qed.

Section regex_branch.
Import file_ops.
Context `{Re} `{Os}.

Lemma regex_loop_compiled s p paths :
  re_compile s = Ret p →
  regex_loop s paths = (filter (λ f, re_search p (os_path.basename f)) paths, None).
Proof.
  intros Hc. induction paths as [|f paths IH]; [done|].
  cbn [regex_loop]. rewrite Hc, IH.
  destruct (re_search p (os_path.basename f)) eqn:Hs.
  - rewrite filter_cons_True by (rewrite Hs; done). done.
  - rewrite filter_cons_False by (rewrite Hs; exact id). done.
Qed.
End regex_branch.

(** X28.  With [regex=True] and a pattern given as a string, a call without
    sub-folders yields the entries of the directory whose base name the
    pattern finds a match in.  A pattern that does not compile raises at the
    first entry, so it goes unnoticed on a directory without entries. *)
Theorem regex_listing_searches_base_names `{Re} `{Os}
    (directory substrings : string) :
  match re_compile substrings with
  | Ret p =>
      file_ops.get_list_of_file_paths_in_dir directory (file_ops.SubStr substrings)
        false true
      = (filter (λ f, re_search p (os_path.basename f))
           (glob_glob (os_path.join directory "*")), None)
  | Raise e =>
      file_ops.get_list_of_file_paths_in_dir directory (file_ops.SubStr substrings)
        false true
      = ([], match glob_glob (os_path.join directory "*") with
             | [] => None
             | _ => Some e
             end)
  end.
Proof.
  rewrite get_list_without_subfolders. unfold file_ops.own_entries.
  destruct (re_compile substrings) as [p|e] eqn:Hc.
  - by apply regex_loop_compiled.
  - destruct (glob_glob (os_path.join directory "*")); [done|].
    cbn [file_ops.regex_loop]. by rewrite Hc.
Qed.
